(** * Portfolio position aggregation: the Dashboard's [loadPortfolioMetrics]
      and the Portfolios page's [calculatePortfolioValue].

    The TypeScript sources are embedded as Rocq functions.  A JavaScript
    [number] is an IEEE 754 binary64 value, modelled by the Standard
    Library's [spec_float] with precision 53 and maximal exponent 1024, so
    that rounding, signed zeros, infinities and NaN are those of the
    program.  A JavaScript [Map] is an insertion-ordered association list. *)

From Stdlib Require Import ZArith List String Bool Lia.
From Stdlib Require Import Floats.SpecFloat.
Import ListNotations.

Local Open Scope string_scope.
Local Open Scope list_scope.

(** ** JavaScript numbers *)

Module JSNumber.

Definition prec : Z := 53.
Definition emax : Z := 1024.

Definition number : Type := spec_float.

Definition add : number -> number -> number := SFadd prec emax.
Definition sub : number -> number -> number := SFsub prec emax.
Definition mul : number -> number -> number := SFmul prec emax.
Definition div : number -> number -> number := SFdiv prec emax.

(** [x <= y] and [x > y]; both are [false] as soon as one side is NaN. *)
Definition leb (x y : number) : bool := SFleb x y.
Definition gtb (x y : number) : bool := SFltb y x.

(** The literal [m * 2^e], rounded to binary64; [of_Z z] is an integer literal. *)
Definition of_scaled (m e : Z) : number := binary_normalize prec emax m e false.
Definition of_Z (z : Z) : number := of_scaled z 0.

Definition zero : number := S754_zero false.
Definition hundred : number := of_Z 100.
Definition NaN : number := S754_nan.

(** [Number.isFinite]. *)
Definition isFinite (x : number) : bool :=
  match x with
  | S754_zero _ | S754_finite _ _ _ => true
  | S754_infinity _ | S754_nan => false
  end.

(** [x === 0] (true for both zeros). *)
Definition is_zero (x : number) : bool :=
  match x with
  | S754_zero _ => true
  | _ => false
  end.

(** ToBoolean on numbers: [0], [-0] and [NaN] are falsy. *)
Definition truthy (x : number) : bool :=
  match x with
  | S754_zero _ | S754_nan => false
  | _ => true
  end.

(** [x || 0] where [x] may be [undefined]. *)
Definition or_zero (x : option number) : number :=
  match x with
  | Some v => if truthy v then v else zero
  | None => zero
  end.

(** A finite, strictly positive binary64 value (a positive real quantity). *)
Definition positive_real (x : number) : bool :=
  match x with
  | S754_finite false m e => bounded prec emax m e
  | _ => false
  end.

End JSNumber.

Import JSNumber.

Declare Scope number_scope.
Delimit Scope number_scope with num.
Bind Scope number_scope with number.
Infix "+" := add : number_scope.
Infix "-" := sub : number_scope.
Infix "*" := mul : number_scope.
Infix "/" := div : number_scope.

(** ** JavaScript [Map<string, V>]: keys in insertion order *)

Module JSMap.
Section Ops.
Context {V : Type}.

Definition t : Type := list (string * V).

Definition empty : t := [].

Fixpoint get (k : string) (m : t) : option V :=
  match m with
  | [] => None
  | (k', v) :: m' => if String.eqb k k' then Some v else get k m'
  end.

(** [set] on a present key replaces the value where it stands; on an
    absent key it appends the entry. *)
Fixpoint set (k : string) (v : V) (m : t) : t :=
  match m with
  | [] => [(k, v)]
  | (k', v') :: m' =>
      if String.eqb k k' then (k, v) :: m' else (k', v') :: set k v m'
  end.

Fixpoint delete (k : string) (m : t) : t :=
  match m with
  | [] => []
  | (k', v') :: m' =>
      if String.eqb k k' then m' else (k', v') :: delete k m'
  end.

Definition values (m : t) : list V := map snd m.
Definition entries (m : t) : list (string * V) := m.
End Ops.
Arguments t : clear implicits.
End JSMap.

(** ** The data model of src/types/index.ts *)

Module Stock.
Record t : Type := mk
  { id : string; symbol : string; name : string; sector : string }.
End Stock.

Inductive TransactionType : Type := buy | sell.

Module Transaction.
(** [stock] is the optional joined record ([stock?: Stock]); a Firestore
    transaction document carries only [stock_id]. *)
Record t : Type := mk
  { stock_id : string;
    transaction_type : TransactionType;
    quantity : number;
    price : number;
    fees : number;
    stock : option Stock.t }.
End Transaction.

Module Holding.
Record t : Type := mk
  { stock : Stock.t;
    quantity : number;
    averagePrice : number;
    currentPrice : number;
    totalCost : number;
    currentValue : number;
    unrealizedGain : number;
    unrealizedGainPercent : number;
    weight : number }.
End Holding.

Module SectorSlice.
Record t : Type := mk
  { sector : string; value : number; percentage : number }.
End SectorSlice.

Module PortfolioMetrics.
Record t : Type := mk
  { totalValue : number;
    totalCost : number;
    totalGain : number;
    totalGainPercent : number;
    cagr : number;
    volatility : number;
    sharpeRatio : number;
    maxDrawdown : number;
    beta : number;
    holdings : list Holding.t;
    sectorAllocation : list SectorSlice.t }.
End PortfolioMetrics.

(** ** Firestore reads

    [await getDoc(doc(db, 'stocks', id))] either rejects (the exception is
    caught by the [try]/[catch] of the caller) or resolves to a snapshot
    whose [exists()] is false ([Snapshot None]) or that holds the stock. *)

Inductive Fetch : Type :=
  | Rejected
  | Snapshot (data : option Stock.t).

Definition StocksCollection : Type := string -> Fetch.

(** ** Dashboard: [loadPortfolioMetrics] (src/unnamed/part_001, 350-444) *)

(** The two variables the [for] loop updates. *)
Record LoopState : Type := mkLoop
  { loop_holdings : JSMap.t Holding.t;
    loop_totalCost : number }.

Definition initialState : LoopState :=
  {| loop_holdings := JSMap.empty; loop_totalCost := zero |}.

(** The loop body once the stock document is resolved (lines 374-404).
    [existingHolding] is the object stored in the map, so the assignments
    to its fields change the map's entry where it stands. *)
Definition processTxn (stock : Stock.t) (txn : Transaction.t) (st : LoopState)
  : LoopState :=
  let key := Stock.symbol stock in
  let existingHolding := JSMap.get key (loop_holdings st) in
  match Transaction.transaction_type txn with
  | buy =>
      let cost :=
        (Transaction.quantity txn * Transaction.price txn
         + Transaction.fees txn)%num in
      let totalCost := (loop_totalCost st + cost)%num in
      match existingHolding with
      | Some h =>
          let newQuantity := (Holding.quantity h + Transaction.quantity txn)%num in
          let newTotalCost := (Holding.totalCost h + cost)%num in
          let h' :=
            {| Holding.stock := Holding.stock h;
               Holding.quantity := newQuantity;
               Holding.averagePrice := (newTotalCost / newQuantity)%num;
               Holding.currentPrice := Holding.currentPrice h;
               Holding.totalCost := newTotalCost;
               Holding.currentValue := Holding.currentValue h;
               Holding.unrealizedGain := Holding.unrealizedGain h;
               Holding.unrealizedGainPercent := Holding.unrealizedGainPercent h;
               Holding.weight := Holding.weight h |} in
          {| loop_holdings := JSMap.set key h' (loop_holdings st);
             loop_totalCost := totalCost |}
      | None =>
          let h :=
            {| Holding.stock := stock;
               Holding.quantity := Transaction.quantity txn;
               Holding.averagePrice := Transaction.price txn;
               Holding.currentPrice := Transaction.price txn;
               Holding.totalCost := cost;
               Holding.currentValue :=
                 (Transaction.quantity txn * Transaction.price txn)%num;
               Holding.unrealizedGain := zero;
               Holding.unrealizedGainPercent := zero;
               Holding.weight := zero |} in
          {| loop_holdings := JSMap.set key h (loop_holdings st);
             loop_totalCost := totalCost |}
      end
  | sell =>
      match existingHolding with
      | Some h =>
          let h' :=
            {| Holding.stock := Holding.stock h;
               Holding.quantity :=
                 (Holding.quantity h - Transaction.quantity txn)%num;
               Holding.averagePrice := Holding.averagePrice h;
               Holding.currentPrice := Holding.currentPrice h;
               Holding.totalCost := Holding.totalCost h;
               Holding.currentValue := Holding.currentValue h;
               Holding.unrealizedGain := Holding.unrealizedGain h;
               Holding.unrealizedGainPercent := Holding.unrealizedGainPercent h;
               Holding.weight := Holding.weight h |} in
          if leb (Holding.quantity h') zero
          then {| loop_holdings := JSMap.delete key (loop_holdings st);
                  loop_totalCost := loop_totalCost st |}
          else {| loop_holdings := JSMap.set key h' (loop_holdings st);
                  loop_totalCost := loop_totalCost st |}
      | None => st
      end
  end.

(** One iteration (lines 363-405): fetch the stock, [continue] when the
    document does not exist.  [None] is a rejected fetch. *)
Definition iteration (db : StocksCollection) (txn : Transaction.t)
    (st : LoopState) : option LoopState :=
  match db (Transaction.stock_id txn) with
  | Rejected => None
  | Snapshot None => Some st
  | Snapshot (Some stock) => Some (processTxn stock txn st)
  end.

Fixpoint loop (db : StocksCollection) (docs : list Transaction.t)
    (st : LoopState) : option LoopState :=
  match docs with
  | [] => Some st
  | txn :: rest =>
      match iteration db txn st with
      | Some st' => loop db rest st'
      | None => None
      end
  end.

(** [holding.stock.sector || 'Unknown']. *)
Definition sectorOf (h : Holding.t) : string :=
  let s := Stock.sector (Holding.stock h) in
  if String.eqb s "" then "Unknown" else s.

(** Lines 410-414, for one holding. *)
Definition valueHolding (totalValue : number) (h : Holding.t) : Holding.t :=
  {| Holding.stock := Holding.stock h;
     Holding.quantity := Holding.quantity h;
     Holding.averagePrice := Holding.averagePrice h;
     Holding.currentPrice := Holding.currentPrice h;
     Holding.totalCost := Holding.totalCost h;
     Holding.currentValue := Holding.currentValue h;
     Holding.unrealizedGain :=
       (Holding.currentValue h - Holding.totalCost h)%num;
     Holding.unrealizedGainPercent :=
       ((Holding.currentValue h - Holding.totalCost h)
        / Holding.totalCost h * hundred)%num;
     Holding.weight := (Holding.currentValue h / totalValue * hundred)%num |}.

(** Lines 416-420. *)
Definition addSector (sectorMap : JSMap.t number) (h : Holding.t)
  : JSMap.t number :=
  let sector := sectorOf h in
  JSMap.set sector
    (or_zero (JSMap.get sector sectorMap) + Holding.currentValue h)%num
    sectorMap.

(** Lines 407-440: everything after the loop, up to the argument of
    [setMetrics]. *)
Definition summarize (st : LoopState) : PortfolioMetrics.t :=
  let holdingsArray := JSMap.values (loop_holdings st) in
  let totalValue :=
    fold_left (fun sum h => (sum + Holding.currentValue h)%num)
      holdingsArray zero in
  let holdingsArray := map (valueHolding totalValue) holdingsArray in
  let sectorMap := fold_left addSector holdingsArray JSMap.empty in
  let sectorAllocation :=
    map (fun '(sector, value) =>
           {| SectorSlice.sector := sector;
              SectorSlice.value := value;
              SectorSlice.percentage := (value / totalValue * hundred)%num |})
      (JSMap.entries sectorMap) in
  let totalCost := loop_totalCost st in
  {| PortfolioMetrics.totalValue := totalValue;
     PortfolioMetrics.totalCost := totalCost;
     PortfolioMetrics.totalGain := (totalValue - totalCost)%num;
     PortfolioMetrics.totalGainPercent :=
       ((totalValue - totalCost) / totalCost * hundred)%num;
     PortfolioMetrics.cagr := zero;
     PortfolioMetrics.volatility := zero;
     PortfolioMetrics.sharpeRatio := zero;
     PortfolioMetrics.maxDrawdown := zero;
     PortfolioMetrics.beta := zero;
     PortfolioMetrics.holdings := holdingsArray;
     PortfolioMetrics.sectorAllocation := sectorAllocation |}.

(** What a run leaves behind: the state set by [setMetrics], or the
    [console.error] of the [catch] block. *)
Inductive Outcome : Type :=
  | SetMetrics (m : PortfolioMetrics.t)
  | ConsoleError.

(** [docs] are the documents of the query snapshot, in its order. *)
Definition loadPortfolioMetrics (db : StocksCollection)
    (docs : list Transaction.t) : Outcome :=
  match loop db docs initialState with
  | Some st => SetMetrics (summarize st)
  | None => ConsoleError
  end.

(** ** Portfolios page: [calculatePortfolioValue] (src/unnamed/part_002, 296-318) *)

Module Position.
Record t : Type := mk
  { quantity : number; symbol : string; name : string }.
End Position.

Module PositionRow.
Record t : Type := mk
  { stockId : string; quantity : number; symbol : string; name : string }.
End PositionRow.

Definition tally (holdings : JSMap.t Position.t) (txn : Transaction.t)
  : JSMap.t Position.t :=
  let key := Transaction.stock_id txn in
  let current :=
    match JSMap.get key holdings with
    | Some c => c
    | None =>
        {| Position.quantity := zero;
           Position.symbol :=
             match Transaction.stock txn with
             | Some s => Stock.symbol s
             | None => ""
             end;
           Position.name :=
             match Transaction.stock txn with
             | Some s => Stock.name s
             | None => ""
             end |}
    end in
  let current :=
    match Transaction.transaction_type txn with
    | buy =>
        {| Position.quantity :=
             (Position.quantity current + Transaction.quantity txn)%num;
           Position.symbol := Position.symbol current;
           Position.name := Position.name current |}
    | sell =>
        {| Position.quantity :=
             (Position.quantity current - Transaction.quantity txn)%num;
           Position.symbol := Position.symbol current;
           Position.name := Position.name current |}
    end in
  JSMap.set key current holdings.

Definition calculatePortfolioValue (transactions : list Transaction.t)
  : list PositionRow.t :=
  let holdings := fold_left tally transactions JSMap.empty in
  map (fun '(stockId, holding) =>
         {| PositionRow.stockId := stockId;
            PositionRow.quantity := Position.quantity holding;
            PositionRow.symbol := Position.symbol holding;
            PositionRow.name := Position.name holding |})
    (filter (fun '(_, holding) => gtb (Position.quantity holding) zero)
       (JSMap.entries holdings)).

(** ** Vocabulary of the statements *)

(** Every stock fetch of the run resolves (no rejected promise). *)
Definition fetched (db : StocksCollection) (docs : list Transaction.t) : Prop :=
  Forall (fun t => db (Transaction.stock_id t) <> Rejected) docs.

(** The transaction's stock document exists and carries symbol [S]. *)
Definition resolvesTo (db : StocksCollection) (t : Transaction.t) (S : string)
  : Prop :=
  exists stock,
    db (Transaction.stock_id t) = Snapshot (Some stock) /\ Stock.symbol stock = S.

(** The stock document of the transaction does not exist. *)
Definition unresolved (db : StocksCollection) (t : Transaction.t) : bool :=
  match db (Transaction.stock_id t) with
  | Snapshot None => true
  | _ => false
  end.

(** A buy that reaches the loop body. *)
Definition processedBuy (db : StocksCollection) (t : Transaction.t) : bool :=
  match db (Transaction.stock_id t), Transaction.transaction_type t with
  | Snapshot (Some _), buy => true
  | _, _ => false
  end.

Definition isBuy (t : Transaction.t) : bool :=
  match Transaction.transaction_type t with
  | buy => true
  | sell => false
  end.

(** [txn.quantity * txn.price + txn.fees]. *)
Definition costOf (t : Transaction.t) : number :=
  (Transaction.quantity t * Transaction.price t + Transaction.fees t)%num.

Definition keys {V : Type} (m : JSMap.t V) : list string := map fst m.

(** [t] is the last transaction of [docs] processed for symbol [S]. *)
Definition lastProcessedFor (db : StocksCollection) (docs : list Transaction.t)
    (S : string) (t : Transaction.t) : Prop :=
  exists pre post,
    docs = pre ++ t :: post /\ resolvesTo db t S /\
    forall u, In u post -> ~ resolvesTo db u S.

(** The sum over the holdings of quantity * current price, accumulated as
    the source's [reduce] does. *)
Definition holdingsWorth (hs : list Holding.t) : number :=
  fold_left
    (fun sum h => (sum + Holding.quantity h * Holding.currentPrice h)%num)
    hs zero.

(** Every division whose divisor is zero yields a finite value. *)
Definition divisionsGuarded (m : PortfolioMetrics.t) : Prop :=
  (is_zero (PortfolioMetrics.totalCost m) = true ->
   isFinite (PortfolioMetrics.totalGainPercent m) = true) /\
  (forall h, In h (PortfolioMetrics.holdings m) ->
     (is_zero (Holding.totalCost h) = true ->
      isFinite (Holding.unrealizedGainPercent h) = true) /\
     (is_zero (PortfolioMetrics.totalValue m) = true ->
      isFinite (Holding.weight h) = true)).

(** [t] is the buy that opened the position held under [S] at the end of
    [docs], and [post] is what was processed after it: [S] had no holding
    when [t] arrived and has had one ever since. *)
Definition openingBuy (db : StocksCollection) (docs : list Transaction.t)
    (S : string) (t : Transaction.t) (post : list Transaction.t) : Prop :=
  exists pre,
    docs = pre ++ t :: post /\
    Transaction.transaction_type t = buy /\
    resolvesTo db t S /\
    (exists st0, loop db pre initialState = Some st0 /\
                 JSMap.get S (loop_holdings st0) = None) /\
    (forall post1 post2, post = post1 ++ post2 ->
       exists st1, loop db (pre ++ t :: post1) initialState = Some st1 /\
                   JSMap.get S (loop_holdings st1) <> None).

(** The entry [h] stored under [k] at the end of [docs] keeps the stock,
    the price and the value of the buy that opened it, and the quantity of
    that buy as long as nothing else was processed for [k]. *)
Definition openedPosition (db : StocksCollection) (docs : list Transaction.t)
    (k : string) (h : Holding.t) : Prop :=
  exists t post,
    openingBuy db docs k t post /\
    db (Transaction.stock_id t) = Snapshot (Some (Holding.stock h)) /\
    Stock.symbol (Holding.stock h) = k /\
    Holding.currentPrice h = Transaction.price t /\
    Holding.currentValue h =
      (Transaction.quantity t * Transaction.price t)%num /\
    ((forall u, In u post -> ~ resolvesTo db u k) ->
     Holding.quantity h = Transaction.quantity t).

(** A quantity that is strictly positive: a positive finite value whose
    exponent is in range, or +Infinity (reached by overflow only). *)
Definition heldQuantity (x : number) : Prop :=
  match x with
  | S754_finite false _ e => (emin prec emax <= e)%Z
  | S754_infinity false => True
  | _ => False
  end.

(** A positive mantissa with an exponent in range rounds to a finite value
    of the same sign, or overflows to the infinity of that sign. *)
Definition signedNonZero (sx : bool) (x : number) : Prop :=
  match x with
  | S754_finite s _ e => s = sx /\ (emin prec emax <= e)%Z
  | S754_infinity s => s = sx
  | _ => False
  end.

(** A run that meets a transaction on a missing stock document tells its
    caller: the only channel the source has is the [catch] block, the
    metrics record has no field for a warning. *)
Definition surfacesUnresolved (db : StocksCollection)
    (docs : list Transaction.t) : Prop :=
  (exists t, In t docs /\ unresolved db t = true) ->
  loadPortfolioMetrics db docs = ConsoleError.

(** ** Concrete inputs *)

Definition AAPL : Stock.t :=
  {| Stock.id := "stock-aapl"; Stock.symbol := "AAPL";
     Stock.name := "Apple Inc."; Stock.sector := "Technology" |}.

(** A [stocks] collection holding the single document [stock-aapl]. *)
Definition stocksDb : StocksCollection :=
  fun id => if String.eqb id "stock-aapl" then Snapshot (Some AAPL)
            else Snapshot None.

Definition txnOn (stockId : string) (ty : TransactionType) (q p f : Z)
  : Transaction.t :=
  {| Transaction.stock_id := stockId;
     Transaction.transaction_type := ty;
     Transaction.quantity := of_Z q;
     Transaction.price := of_Z p;
     Transaction.fees := of_Z f;
     Transaction.stock := None |}.

Definition txnAAPL : TransactionType -> Z -> Z -> Z -> Transaction.t :=
  txnOn "stock-aapl".

(** ** Settings page: [toggleSector] (src/unnamed/part_001, 107-113) *)

Inductive RiskProfile : Type := conservative | moderate | aggressive.
Inductive InvestmentHorizon : Type := short | medium | long.

Module SettingsForm.
Record t : Type := mk
  { risk_profile : RiskProfile;
    investment_horizon : InvestmentHorizon;
    preferred_sectors : list string }.
End SettingsForm.

(** The form handed to [setForm]. *)
Definition toggleSector (sector : string) (form : SettingsForm.t)
  : SettingsForm.t :=
  if existsb (String.eqb sector) (SettingsForm.preferred_sectors form)
  then
    {| SettingsForm.risk_profile := SettingsForm.risk_profile form;
       SettingsForm.investment_horizon := SettingsForm.investment_horizon form;
       SettingsForm.preferred_sectors :=
         filter (fun s => negb (String.eqb s sector))
           (SettingsForm.preferred_sectors form) |}
  else
    {| SettingsForm.risk_profile := SettingsForm.risk_profile form;
       SettingsForm.investment_horizon := SettingsForm.investment_horizon form;
       SettingsForm.preferred_sectors :=
         SettingsForm.preferred_sectors form ++ [sector] |}.

(** ** Vocabulary of the further statements *)

(** The transaction's stock document exists and carries symbol [S]
    (the decidable form of [resolvesTo]). *)
Definition forSymbol (db : StocksCollection) (S : string) (t : Transaction.t)
  : bool :=
  match db (Transaction.stock_id t) with
  | Snapshot (Some stock) => String.eqb (Stock.symbol stock) S
  | _ => false
  end.

(** The cost of the buy [t] and of the buys of [post] processed for [S],
    accumulated in list order. *)
Definition costSince (db : StocksCollection) (S : string)
    (t : Transaction.t) (post : list Transaction.t) : number :=
  fold_left (fun acc u => (acc + costOf u)%num)
    (filter (fun u => forSymbol db S u && isBuy u) post) (costOf t).

(** The quantity of the buy [t], plus the buys and minus the sells of
    [post] processed for [S], in list order. *)
Definition quantitySince (db : StocksCollection) (S : string)
    (t : Transaction.t) (post : list Transaction.t) : number :=
  fold_left
    (fun q u =>
       match Transaction.transaction_type u with
       | buy => (q + Transaction.quantity u)%num
       | sell => (q - Transaction.quantity u)%num
       end)
    (filter (forSymbol db S) post) (Transaction.quantity t).

(** Two holdings agree on every field but [weight]. *)
Definition sameButWeight (h h' : Holding.t) : Prop :=
  Holding.stock h = Holding.stock h' /\
  Holding.quantity h = Holding.quantity h' /\
  Holding.averagePrice h = Holding.averagePrice h' /\
  Holding.currentPrice h = Holding.currentPrice h' /\
  Holding.totalCost h = Holding.totalCost h' /\
  Holding.currentValue h = Holding.currentValue h' /\
  Holding.unrealizedGain h = Holding.unrealizedGain h' /\
  Holding.unrealizedGainPercent h = Holding.unrealizedGainPercent h'.

(** The value accumulated for sector [s] over the holdings [hs], in list
    order: [None] while no holding of the sector was met; a running value
    that is 0, -0 or NaN counts as 0 for the next addition. *)
Definition sectorValue (s : string) (hs : list Holding.t) : option number :=
  fold_left (fun acc h => Some (or_zero acc + Holding.currentValue h)%num)
    (filter (fun h => String.eqb (sectorOf h) s) hs) None.

(** Buys minus sells of the transactions on stock [k], from 0 and in list
    order. *)
Definition netQuantity (k : string) (transactions : list Transaction.t)
  : number :=
  fold_left
    (fun q t =>
       match Transaction.transaction_type t with
       | buy => (q + Transaction.quantity t)%num
       | sell => (q - Transaction.quantity t)%num
       end)
    (filter (fun t => String.eqb (Transaction.stock_id t) k) transactions)
    zero.

(** [txn.stock?.symbol || ''] and [txn.stock?.name || '']. *)
Definition joinedSymbol (t : Transaction.t) : string :=
  match Transaction.stock t with
  | Some s => Stock.symbol s
  | None => ""
  end.

Definition joinedName (t : Transaction.t) : string :=
  match Transaction.stock t with
  | Some s => Stock.name s
  | None => ""
  end.

(** ** The whole of [loadPortfolioMetrics] (src/unnamed/part_001, 350-444)

    The transactions query of lines 352-358 sits in the same [try] as the
    loop: [await getDocs(q)] either rejects, which the [catch] block
    receives, or resolves to the snapshot whose documents the loop
    reads. *)

Inductive QueryFetch : Type :=
  | QueryRejected
  | QuerySnapshot (docs : list Transaction.t).

Definition loadPortfolioMetricsRun (transactions : QueryFetch)
    (db : StocksCollection) : Outcome :=
  match transactions with
  | QueryRejected => ConsoleError
  | QuerySnapshot docs => loadPortfolioMetrics db docs
  end.

(** The position held under [S] at the end of [docs] was opened by the
    transaction of index [n] (counted from 0). *)
Definition openedAt (db : StocksCollection) (docs : list Transaction.t)
    (S : string) (n : nat) : Prop :=
  exists t post,
    openingBuy db docs S t post /\ List.length docs = n + 1 + List.length post.

(** Each number is smaller than all those after it. *)
Fixpoint increasing (l : list nat) : Prop :=
  match l with
  | [] => True
  | n :: l' => Forall (fun k => n < k) l' /\ increasing l'
  end.

(** * Facts *)

(** ** Maps *)

Section MapFacts.
Context {V : Type}.
Implicit Types (m : JSMap.t V) (k : string) (v : V).

Lemma get_set_same k v m : JSMap.get k (JSMap.set k v m) = Some v.
Proof.
  induction m as [|[k' v'] m IH]; simpl.
  - now rewrite String.eqb_refl.
  - destruct (String.eqb k k') eqn:E; simpl; rewrite ?E; auto.
    now rewrite String.eqb_refl.
Qed.

Lemma get_set_other k k' v m :
  k <> k' -> JSMap.get k' (JSMap.set k v m) = JSMap.get k' m.
Proof.
  intros Hne. induction m as [|[k0 v0] m IH]; simpl.
  - destruct (String.eqb_spec k' k); congruence.
  - destruct (String.eqb_spec k k0) as [->|]; simpl.
    + destruct (String.eqb_spec k' k0); congruence.
    + now rewrite IH.
Qed.

Lemma get_delete_other k k' m :
  k <> k' -> JSMap.get k' (JSMap.delete k m) = JSMap.get k' m.
Proof.
  intros Hne. induction m as [|[k0 v0] m IH]; simpl; auto.
  destruct (String.eqb_spec k k0) as [->|]; simpl.
  - destruct (String.eqb_spec k' k0); congruence.
  - now rewrite IH.
Qed.

Lemma get_None_keys k m : JSMap.get k m = None <-> ~ In k (keys m).
Proof.
  induction m as [|[k0 v0] m IH]; simpl.
  - tauto.
  - destruct (String.eqb_spec k k0) as [->|Hne].
    + split; [discriminate | intros H; exfalso; apply H; now left].
    + rewrite IH. split; intros H; [intros [|]; congruence | tauto].
Qed.

Lemma keys_set_absent k v m :
  JSMap.get k m = None -> keys (JSMap.set k v m) = keys m ++ [k].
Proof.
  induction m as [|[k0 v0] m IH]; simpl; auto.
  destruct (String.eqb k k0); [discriminate|].
  intros H. simpl. now rewrite IH.
Qed.

Lemma keys_set_present k v v0 m :
  JSMap.get k m = Some v0 -> keys (JSMap.set k v m) = keys m.
Proof.
  induction m as [|[k1 v1] m IH]; simpl; [discriminate|].
  destruct (String.eqb_spec k k1) as [->|]; simpl; auto.
  intros H. now rewrite IH.
Qed.

Lemma NoDup_keys_set k v m : NoDup (keys m) -> NoDup (keys (JSMap.set k v m)).
Proof.
  intros Hnd. destruct (JSMap.get k m) eqn:E.
  - now rewrite (keys_set_present _ _ _ _ E).
  - rewrite (keys_set_absent _ _ _ E).
    apply NoDup_app; auto.
    + repeat constructor. simpl. tauto.
    + intros x Hx [<-|[]]. now apply get_None_keys in E.
Qed.

Lemma keys_delete_incl k m : incl (keys (JSMap.delete k m)) (keys m).
Proof.
  induction m as [|[k0 v0] m IH]; simpl; [apply incl_refl|].
  destruct (String.eqb k k0).
  - apply incl_tl, incl_refl.
  - apply incl_cons; [now left | now apply incl_tl].
Qed.

Lemma NoDup_keys_delete k m :
  NoDup (keys m) -> NoDup (keys (JSMap.delete k m)).
Proof.
  induction m as [|[k0 v0] m IH]; simpl; auto.
  intros Hnd. inversion Hnd as [|? ? Hnotin Hnd']; subst.
  destruct (String.eqb k k0); auto.
  simpl. constructor; auto.
  intros Hin. apply Hnotin. now apply (keys_delete_incl k m).
Qed.

Lemma get_delete_same k m :
  NoDup (keys m) -> JSMap.get k (JSMap.delete k m) = None.
Proof.
  induction m as [|[k0 v0] m IH]; simpl; auto.
  intros Hnd. inversion Hnd as [|? ? Hnotin Hnd']; subst.
  destruct (String.eqb_spec k k0) as [->|Hne].
  - now apply get_None_keys.
  - simpl. destruct (String.eqb_spec k k0); [congruence | auto].
Qed.

Lemma get_In k v m : JSMap.get k m = Some v -> In (k, v) m.
Proof.
  induction m as [|[k0 v0] m IH]; simpl; [discriminate|].
  destruct (String.eqb_spec k k0) as [->|].
  - intros [= ->]. now left.
  - intros H. right. auto.
Qed.

Lemma In_get k v m : NoDup (keys m) -> In (k, v) m -> JSMap.get k m = Some v.
Proof.
  induction m as [|[k0 v0] m IH]; simpl; [tauto|].
  intros Hnd. inversion Hnd as [|? ? Hnotin Hnd']; subst.
  intros [[= -> ->]|Hin].
  - now rewrite String.eqb_refl.
  - destruct (String.eqb_spec k k0) as [->|]; auto.
    exfalso. apply Hnotin. change k0 with (fst (k0, v)). now apply in_map.
Qed.

Lemma In_values_get v m :
  NoDup (keys m) -> In v (JSMap.values m) -> exists k, JSMap.get k m = Some v.
Proof.
  intros Hnd Hin. apply in_map_iff in Hin as [[k v'] [Hv Hin]].
  simpl in Hv. subst v'. exists k. now apply In_get.
Qed.
End MapFacts.

(** ** The loop *)

(** Closes [fetched db docs] on a concrete collection and list. *)
Ltac solve_fetched :=
  repeat constructor; intros E; vm_compute in E; discriminate E.

Lemma loop_app db a b st :
  loop db (a ++ b) st =
  match loop db a st with
  | Some st' => loop db b st'
  | None => None
  end.
Proof.
  revert st. induction a as [|t a IH]; intros st; simpl; auto.
  destruct (iteration db t st); auto.
Qed.

Lemma loop_snoc db a t st :
  loop db (a ++ [t]) st =
  match loop db a st with
  | Some st' => iteration db t st'
  | None => None
  end.
Proof.
  rewrite loop_app. destruct (loop db a st); simpl; auto.
  now destruct (iteration db t l).
Qed.

Lemma loop_fetched db docs :
  fetched db docs -> forall st, exists st', loop db docs st = Some st'.
Proof.
  induction 1 as [|t docs Ht _ IH]; intros st; simpl.
  - now exists st.
  - unfold iteration. destruct (db (Transaction.stock_id t)) as [|[stock|]].
    + congruence.
    + apply IH.
    + apply IH.
Qed.

Lemma fetched_app db a b : fetched db (a ++ b) <-> fetched db a /\ fetched db b.
Proof. apply Forall_app. Qed.

Lemma processTxn_NoDup stock txn st :
  NoDup (keys (loop_holdings st)) ->
  NoDup (keys (loop_holdings (processTxn stock txn st))).
Proof.
  intros Hnd. unfold processTxn.
  destruct (Transaction.transaction_type txn);
    destruct (JSMap.get (Stock.symbol stock) (loop_holdings st)); simpl;
    auto using NoDup_keys_set.
  destruct (leb _ _); simpl; auto using NoDup_keys_set, NoDup_keys_delete.
Qed.

Lemma iteration_NoDup db txn st st' :
  iteration db txn st = Some st' ->
  NoDup (keys (loop_holdings st)) -> NoDup (keys (loop_holdings st')).
Proof.
  unfold iteration. destruct (db (Transaction.stock_id txn)) as [|[stock|]];
    intros [= <-]; auto using processTxn_NoDup.
Qed.

Lemma loop_NoDup db docs : forall st st',
  loop db docs st = Some st' ->
  NoDup (keys (loop_holdings st)) -> NoDup (keys (loop_holdings st')).
Proof.
  induction docs as [|t docs IH]; simpl; intros st st'.
  - now intros [= <-].
  - destruct (iteration db t st) as [st1|] eqn:E; [|discriminate].
    intros Hl Hnd. eapply IH; eauto using iteration_NoDup.
Qed.

Lemma initial_NoDup : NoDup (keys (loop_holdings initialState)).
Proof. constructor. Qed.

Lemma loop_skips_unresolved db docs : forall st,
  loop db (filter (fun t => negb (unresolved db t)) docs) st = loop db docs st.
Proof.
  induction docs as [|t docs IH]; intros st; simpl; auto.
  unfold unresolved at 1, iteration.
  destruct (db (Transaction.stock_id t)) as [|[stock|]] eqn:E; simpl;
    unfold iteration; rewrite ?E; auto.
Qed.

Lemma loop_totalCost_sum db docs : forall st st',
  loop db docs st = Some st' ->
  loop_totalCost st' =
  fold_left (fun acc t => (acc + costOf t)%num)
    (filter (processedBuy db) docs) (loop_totalCost st).
Proof.
  induction docs as [|t docs IH]; simpl; intros st st'.
  - now intros [= <-].
  - unfold iteration, processedBuy.
    destruct (db (Transaction.stock_id t)) as [|[stock|]]; try discriminate.
    + intros Hl. rewrite (IH _ _ Hl). unfold processTxn.
      destruct (Transaction.transaction_type t); simpl.
      * destruct (JSMap.get _ _); reflexivity.
      * destruct (JSMap.get _ _); [destruct (leb _ _)|]; reflexivity.
    + intros Hl. now rewrite (IH _ _ Hl).
Qed.

Lemma processedBuy_isBuy db docs :
  filter (processedBuy db) (filter isBuy docs) = filter (processedBuy db) docs.
Proof.
  induction docs as [|t docs IH]; simpl; auto.
  destruct (isBuy t) eqn:Eb; simpl; rewrite IH; auto.
  unfold processedBuy. unfold isBuy in Eb.
  destruct (Transaction.transaction_type t); [discriminate|].
  now destruct (db (Transaction.stock_id t)) as [|[|]].
Qed.

Lemma fetched_filter db f docs : fetched db docs -> fetched db (filter f docs).
Proof.
  unfold fetched. rewrite !Forall_forall. intros H t Hin.
  apply filter_In in Hin. now apply H.
Qed.

(** ** The claims on the processing of one transaction *)

(** C9.  On the empty transaction list the run sets metrics with no
    holding, [totalValue] 0, [totalCost] 0 and no sector slice; it does not
    end in the [catch] block, whatever the [stocks] collection. *)
Theorem empty_list_metrics (db : StocksCollection) :
  exists m,
    loadPortfolioMetrics db [] = SetMetrics m /\
    PortfolioMetrics.holdings m = [] /\
    PortfolioMetrics.totalValue m = zero /\
    PortfolioMetrics.totalCost m = zero /\
    PortfolioMetrics.sectorAllocation m = [].
Proof.
  eexists. split; [reflexivity|]. repeat split.
Qed.

(** C8.  A buy of quantity q at price p with fees f, processed when its
    symbol already has a holding, leaves that holding with quantity
    old + q, total cost old + (q*p + f), and average price equal to the new
    total cost divided by the new quantity. *)
Theorem buy_updates_existing_holding
    (db : StocksCollection) (pre : list Transaction.t) (txn : Transaction.t)
    (stock : Stock.t) (st : LoopState) (h : Holding.t) :
  loop db pre initialState = Some st ->
  db (Transaction.stock_id txn) = Snapshot (Some stock) ->
  Transaction.transaction_type txn = buy ->
  JSMap.get (Stock.symbol stock) (loop_holdings st) = Some h ->
  exists st' h',
    loop db (pre ++ [txn]) initialState = Some st' /\
    JSMap.get (Stock.symbol stock) (loop_holdings st') = Some h' /\
    Holding.quantity h' = (Holding.quantity h + Transaction.quantity txn)%num /\
    Holding.totalCost h' =
      (Holding.totalCost h
       + (Transaction.quantity txn * Transaction.price txn
          + Transaction.fees txn))%num /\
    Holding.averagePrice h' = (Holding.totalCost h' / Holding.quantity h')%num.
Proof.
  intros Hpre Hdb Hty Hget.
  rewrite loop_snoc, Hpre. unfold iteration. rewrite Hdb.
  unfold processTxn. rewrite Hty, Hget.
  eexists. eexists. split; [reflexivity|]. simpl.
  rewrite get_set_same. split; [reflexivity|]. simpl. repeat split.
Qed.

Lemma buy_updates_existing_holding_witness :
  exists st' h',
    loop stocksDb ([txnAAPL buy 10 100 5] ++ [txnAAPL buy 5 120 1]) initialState
      = Some st' /\
    JSMap.get "AAPL" (loop_holdings st') = Some h' /\
    Holding.quantity h' = (of_Z 10 + of_Z 5)%num /\
    Holding.totalCost h' =
      ((of_Z 10 * of_Z 100 + of_Z 5) + (of_Z 5 * of_Z 120 + of_Z 1))%num /\
    Holding.averagePrice h' = (Holding.totalCost h' / Holding.quantity h')%num.
Proof.
  exact (buy_updates_existing_holding stocksDb [txnAAPL buy 10 100 5]
           (txnAAPL buy 5 120 1) AAPL _ _
           eq_refl eq_refl eq_refl eq_refl).
Defined.

(** C7.  A sell of quantity q processed for symbol S, from any state of
    the loop (a map has each key once): with no holding for S nothing
    changes; otherwise the quantity becomes old - q, the entry is removed
    from the map when that is <= 0 (an oversell included, and the run goes
    on), and when the entry stays its average price and total cost (and
    every other field) are those it had.  Other symbols and the running
    total cost are untouched.  This is the step every run takes: a list
    that led to the state, extended by the sell, leads to the state
    described. *)
Theorem sell_reduces_or_removes
    (db : StocksCollection) (txn : Transaction.t)
    (stock : Stock.t) (st : LoopState) :
  NoDup (keys (loop_holdings st)) ->
  db (Transaction.stock_id txn) = Snapshot (Some stock) ->
  Transaction.transaction_type txn = sell ->
  exists st',
    iteration db txn st = Some st' /\
    (forall pre st0, loop db pre st0 = Some st ->
       loop db (pre ++ [txn]) st0 = Some st') /\
    loop_totalCost st' = loop_totalCost st /\
    (forall k, k <> Stock.symbol stock ->
       JSMap.get k (loop_holdings st') = JSMap.get k (loop_holdings st)) /\
    match JSMap.get (Stock.symbol stock) (loop_holdings st) with
    | None => st' = st
    | Some h =>
        let q' := (Holding.quantity h - Transaction.quantity txn)%num in
        if leb q' zero
        then JSMap.get (Stock.symbol stock) (loop_holdings st') = None /\
             ~ In (Stock.symbol stock) (keys (loop_holdings st'))
        else exists h',
             JSMap.get (Stock.symbol stock) (loop_holdings st') = Some h' /\
             Holding.quantity h' = q' /\
             Holding.averagePrice h' = Holding.averagePrice h /\
             Holding.totalCost h' = Holding.totalCost h /\
             Holding.currentPrice h' = Holding.currentPrice h /\
             Holding.currentValue h' = Holding.currentValue h /\
             Holding.stock h' = Holding.stock h
    end.
Proof.
  intros Hnd Hdb Hty.
  assert (forall st', iteration db txn st = Some st' ->
            forall pre st0, loop db pre st0 = Some st ->
              loop db (pre ++ [txn]) st0 = Some st') as Hrun.
  { intros st' Hit pre st0 Hpre. now rewrite loop_snoc, Hpre. }
  unfold iteration in *. rewrite Hdb in *.
  unfold processTxn in *. rewrite Hty in *.
  destruct (JSMap.get (Stock.symbol stock) (loop_holdings st)) as [h|] eqn:Hget.
  - cbv zeta in *. simpl Holding.quantity in *.
    destruct (leb (Holding.quantity h - Transaction.quantity txn) zero) eqn:Hle.
    + eexists. split; [reflexivity|]. split; [now apply Hrun|].
      simpl. split; [reflexivity|]. split.
      * intros k Hk. apply get_delete_other. congruence.
      * assert (JSMap.get (Stock.symbol stock)
                  (JSMap.delete (Stock.symbol stock) (loop_holdings st)) = None)
          as Hnone by now apply get_delete_same.
        split; [exact Hnone | now apply get_None_keys].
    + eexists. split; [reflexivity|]. split; [now apply Hrun|].
      simpl. split; [reflexivity|]. split.
      * intros k Hk. apply get_set_other. congruence.
      * eexists. rewrite get_set_same. split; [reflexivity|].
        simpl. repeat split.
  - exists st. split; [reflexivity|]. split; [now apply Hrun|].
    repeat split; auto.
Qed.

(** A holding of 10 AAPL (bought at 100 with fees 5): selling 4 leaves the
    entry with quantity 10 - 4 = 6 and its average price and total cost;
    selling 15 removes it. *)
Lemma sell_reduces_or_removes_witness :
  exists st h,
    loop stocksDb [txnAAPL buy 10 100 5] initialState = Some st /\
    JSMap.get "AAPL" (loop_holdings st) = Some h /\
    Holding.quantity h = of_Z 10 /\
    (exists st' h',
       loop stocksDb ([txnAAPL buy 10 100 5] ++ [txnAAPL sell 4 110 0])
         initialState = Some st' /\
       JSMap.get "AAPL" (loop_holdings st') = Some h' /\
       Holding.quantity h' = of_Z 6 /\
       Holding.averagePrice h' = Holding.averagePrice h /\
       Holding.totalCost h' = Holding.totalCost h /\
       loop_totalCost st' = loop_totalCost st) /\
    (exists st',
       loop stocksDb ([txnAAPL buy 10 100 5] ++ [txnAAPL sell 15 110 0])
         initialState = Some st' /\
       JSMap.get "AAPL" (loop_holdings st') = None /\
       loop_holdings st' = [] /\
       loop_totalCost st' = loop_totalCost st).
Proof.
  eexists. eexists. split; [reflexivity|]. split; [reflexivity|].
  split; [reflexivity|]. split.
  - destruct (sell_reduces_or_removes stocksDb (txnAAPL sell 4 110 0) AAPL
                (processTxn AAPL (txnAAPL buy 10 100 5) initialState)
                ltac:(repeat constructor; simpl; tauto) eq_refl eq_refl)
      as [st' [_ [Hrun [Hcost [_ Hcase]]]]].
    destruct Hcase as [h' [Hget [Hq [Havg [Htc _]]]]].
    exists st', h'. split; [exact (Hrun [txnAAPL buy 10 100 5] initialState eq_refl)|].
    split; [exact Hget|]. split; [rewrite Hq; reflexivity|].
    split; [exact Havg|]. split; [exact Htc | exact Hcost].
  - destruct (sell_reduces_or_removes stocksDb (txnAAPL sell 15 110 0) AAPL
                (processTxn AAPL (txnAAPL buy 10 100 5) initialState)
                ltac:(repeat constructor; simpl; tauto) eq_refl eq_refl)
      as [st' [Hit [Hrun [Hcost [_ Hcase]]]]].
    exists st'. split; [exact (Hrun [txnAAPL buy 10 100 5] initialState eq_refl)|].
    split; [exact (proj1 Hcase)|]. split; [|exact Hcost].
    injection Hit as <-. reflexivity.
Defined.

(** ** The claims on whole runs *)

(** C6.  When every fetch resolves, the [totalCost] handed to [setMetrics]
    is the running sum, from 0 and in list order, of
    quantity * price + fees over the buys whose stock document exists; the
    sells contribute nothing: the list without its sells gives the same
    [totalCost]. *)
Theorem totalCost_sums_processed_buys
    (db : StocksCollection) (docs : list Transaction.t) :
  fetched db docs ->
  exists m,
    loadPortfolioMetrics db docs = SetMetrics m /\
    PortfolioMetrics.totalCost m =
      fold_left (fun acc t => (acc + costOf t)%num)
        (filter (processedBuy db) docs) zero /\
    exists m',
      loadPortfolioMetrics db (filter isBuy docs) = SetMetrics m' /\
      PortfolioMetrics.totalCost m' = PortfolioMetrics.totalCost m.
Proof.
  intros Hf. unfold loadPortfolioMetrics.
  destruct (loop_fetched _ _ Hf initialState) as [st Hst].
  destruct (loop_fetched _ _ (fetched_filter db isBuy _ Hf) initialState)
    as [st2 Hst2].
  rewrite Hst, Hst2. eexists. split; [reflexivity|]. simpl.
  rewrite (loop_totalCost_sum _ _ _ _ Hst). split; [reflexivity|].
  eexists. split; [reflexivity|]. simpl.
  rewrite (loop_totalCost_sum _ _ _ _ Hst2).
  now rewrite processedBuy_isBuy.
Qed.

Lemma totalCost_sums_processed_buys_witness :
  exists m,
    loadPortfolioMetrics stocksDb
      [txnAAPL buy 10 100 5; txnAAPL sell 4 110 0; txnOn "stock-gone" buy 1 1 1]
      = SetMetrics m /\
    PortfolioMetrics.totalCost m = of_Z 1005.
Proof.
  destruct (totalCost_sums_processed_buys stocksDb
              [txnAAPL buy 10 100 5; txnAAPL sell 4 110 0;
               txnOn "stock-gone" buy 1 1 1]
              ltac:(solve_fetched)) as [m [Hrun [Hsum _]]].
  exists m. split; [exact Hrun|]. rewrite Hsum. vm_compute. reflexivity.
Defined.

(** C5, as the code has it.  A transaction whose stock document does not
    exist is skipped by [continue] and leaves no trace: the outcome of the
    run is the outcome on the list from which these transactions are
    removed. *)
Theorem unresolved_transactions_leave_no_trace
    (db : StocksCollection) (docs : list Transaction.t) :
  loadPortfolioMetrics db docs =
  loadPortfolioMetrics db (filter (fun t => negb (unresolved db t)) docs).
Proof.
  unfold loadPortfolioMetrics. now rewrite loop_skips_unresolved.
Qed.

(** C5, as stated, fails: a list that holds one transaction on a missing
    stock document gives exactly the outcome of the empty list, which is
    not the error path. *)
Lemma unresolved_transaction_not_signalled :
  unresolved stocksDb (txnOn "stock-gone" buy 10 100 5) = true /\
  loadPortfolioMetrics stocksDb [txnOn "stock-gone" buy 10 100 5]
    = loadPortfolioMetrics stocksDb [] /\
  ~ surfacesUnresolved stocksDb [txnOn "stock-gone" buy 10 100 5].
Proof.
  split; [reflexivity|]. split; [reflexivity|].
  intros H. unfold surfacesUnresolved in H.
  assert (loadPortfolioMetrics stocksDb [txnOn "stock-gone" buy 10 100 5]
          = ConsoleError) as E.
  { apply H. eexists. split; [left; reflexivity | reflexivity]. }
  discriminate E.
Qed.

(** C2, as the code has it.  A single buy of 10 at price 100 with fees 5 on
    a stock of symbol AAPL gives one holding, with quantity 10, average
    price 100 (the price of the buy: the fees are not part of it), total
    cost 1005, current value 1000 and unrealized gain -5. *)
Theorem single_buy_holding
    (db : StocksCollection) (txn : Transaction.t) (stock : Stock.t) :
  db (Transaction.stock_id txn) = Snapshot (Some stock) ->
  Stock.symbol stock = "AAPL" ->
  Transaction.transaction_type txn = buy ->
  Transaction.quantity txn = of_Z 10 ->
  Transaction.price txn = of_Z 100 ->
  Transaction.fees txn = of_Z 5 ->
  exists m h,
    loadPortfolioMetrics db [txn] = SetMetrics m /\
    PortfolioMetrics.holdings m = [h] /\
    Holding.stock h = stock /\
    Holding.quantity h = of_Z 10 /\
    Holding.averagePrice h = of_Z 100 /\
    Holding.totalCost h = of_Z 1005 /\
    Holding.currentValue h = of_Z 1000 /\
    Holding.unrealizedGain h = of_Z (-5).
Proof.
  intros Hdb Hsym Hty Hq Hp Hf.
  unfold loadPortfolioMetrics. simpl loop. unfold iteration. rewrite Hdb.
  unfold processTxn. rewrite Hty, Hq, Hp, Hf. simpl JSMap.get.
  eexists. eexists. split; [reflexivity|]. simpl.
  split; [reflexivity|]. simpl.
  repeat split; vm_compute; reflexivity.
Qed.

Lemma single_buy_holding_witness :
  exists m h,
    loadPortfolioMetrics stocksDb [txnAAPL buy 10 100 5] = SetMetrics m /\
    PortfolioMetrics.holdings m = [h] /\
    Holding.stock h = AAPL /\
    Holding.quantity h = of_Z 10 /\
    Holding.averagePrice h = of_Z 100 /\
    Holding.totalCost h = of_Z 1005 /\
    Holding.currentValue h = of_Z 1000 /\
    Holding.unrealizedGain h = of_Z (-5).
Proof.
  exact (single_buy_holding stocksDb (txnAAPL buy 10 100 5) AAPL
           eq_refl eq_refl eq_refl eq_refl eq_refl eq_refl).
Defined.

(** C2, as stated, fails: the average price of the holding is 100, not
    100.5 = 201 * 2^-1. *)
Lemma single_buy_averagePrice_is_price :
  exists m h,
    loadPortfolioMetrics stocksDb [txnAAPL buy 10 100 5] = SetMetrics m /\
    PortfolioMetrics.holdings m = [h] /\
    Holding.averagePrice h = of_Z 100 /\
    Holding.averagePrice h <> of_scaled 201 (-1).
Proof.
  eexists. eexists. split; [reflexivity|]. split; [reflexivity|].
  split; [reflexivity|]. vm_compute. discriminate.
Qed.

(** C1, on the code.  After a buy of 10 at 100 and a sell of 4 at 110 the
    holding has quantity 6 and current price 100, so the holdings are
    worth 600, while the [totalValue] handed to [setMetrics] is 1000: the
    current value set when the holding was created is never refreshed. *)
Theorem totalValue_stale_after_sell :
  exists m h,
    loadPortfolioMetrics stocksDb [txnAAPL buy 10 100 0; txnAAPL sell 4 110 0]
      = SetMetrics m /\
    PortfolioMetrics.holdings m = [h] /\
    Holding.quantity h = of_Z 6 /\
    Holding.currentPrice h = of_Z 100 /\
    holdingsWorth (PortfolioMetrics.holdings m) = of_Z 600 /\
    PortfolioMetrics.totalValue m = of_Z 1000 /\
    PortfolioMetrics.totalValue m <> holdingsWorth (PortfolioMetrics.holdings m).
Proof.
  eexists. eexists. split; [reflexivity|]. split; [reflexivity|].
  repeat split; vm_compute; try reflexivity. discriminate.
Qed.

(** ** Division by zero *)

Lemma div_zero_times_hundred (x z : number) :
  is_zero z = true -> isFinite (x / z * hundred)%num = false.
Proof.
  destruct z as [sz| | |]; try discriminate. intros _.
  destruct x as [sx|sx| |sx mx ex]; vm_compute; reflexivity.
Qed.

Lemma In_sectorAllocation (st : LoopState) (s : SectorSlice.t) :
  In s (PortfolioMetrics.sectorAllocation (summarize st)) ->
  exists value,
    SectorSlice.percentage s =
    (value / PortfolioMetrics.totalValue (summarize st) * hundred)%num.
Proof.
  unfold summarize. simpl. intros Hin.
  apply in_map_iff in Hin as [[sector value] [<- _]].
  now exists value.
Qed.

(** C4, as the code has it.  No division is guarded.  Whenever a divisor
    is zero the quotient handed to [setMetrics] is not finite (NaN or an
    infinity): [totalGainPercent] when [totalCost] is 0, a holding's
    [unrealizedGainPercent] when its total cost is 0, and every holding's
    [weight] and every sector's [percentage] when [totalValue] is 0. *)
Theorem zero_divisor_gives_non_finite
    (db : StocksCollection) (docs : list Transaction.t) :
  fetched db docs ->
  exists m,
    loadPortfolioMetrics db docs = SetMetrics m /\
    (is_zero (PortfolioMetrics.totalCost m) = true ->
     isFinite (PortfolioMetrics.totalGainPercent m) = false) /\
    (forall h, In h (PortfolioMetrics.holdings m) ->
       (is_zero (Holding.totalCost h) = true ->
        isFinite (Holding.unrealizedGainPercent h) = false) /\
       (is_zero (PortfolioMetrics.totalValue m) = true ->
        isFinite (Holding.weight h) = false)) /\
    (forall s, In s (PortfolioMetrics.sectorAllocation m) ->
       is_zero (PortfolioMetrics.totalValue m) = true ->
       isFinite (SectorSlice.percentage s) = false).
Proof.
  intros Hf. unfold loadPortfolioMetrics.
  destruct (loop_fetched _ _ Hf initialState) as [st ->].
  eexists. split; [reflexivity|]. split; [|split].
  - simpl. apply div_zero_times_hundred.
  - intros h Hin. unfold summarize in Hin. simpl in Hin.
    apply in_map_iff in Hin as [h0 [<- _]]. simpl.
    split; apply div_zero_times_hundred.
  - intros s Hin Hz. apply In_sectorAllocation in Hin as [value ->].
    now apply div_zero_times_hundred.
Qed.

Lemma zero_divisor_gives_non_finite_witness :
  exists m,
    loadPortfolioMetrics stocksDb [txnAAPL buy 10 0 0] = SetMetrics m /\
    isFinite (PortfolioMetrics.totalGainPercent m) = false /\
    Forall (fun h => isFinite (Holding.unrealizedGainPercent h) = false /\
                     isFinite (Holding.weight h) = false)
      (PortfolioMetrics.holdings m).
Proof.
  destruct (zero_divisor_gives_non_finite stocksDb [txnAAPL buy 10 0 0])
    as [m [Hrun [Htotal [Hhold _]]]].
  - solve_fetched.
  - exists m. injection Hrun as <-.
    split; [reflexivity|]. split; [exact (Htotal eq_refl)|].
    apply Forall_forall. intros h Hin.
    destruct (Hhold h Hin) as [Hgain Hweight].
    destruct Hin as [<-|[]].
    split; [exact (Hgain eq_refl) | exact (Hweight eq_refl)].
Defined.

(** C4, as stated, fails: on the empty list [totalCost] is 0 and
    [totalGainPercent] is NaN; a holding bought at price 0 without fees has
    total cost 0 and NaN for both its gain percent and its weight. *)
Lemma empty_list_totalGainPercent_NaN :
  (exists m,
     loadPortfolioMetrics stocksDb [] = SetMetrics m /\
     PortfolioMetrics.totalCost m = zero /\
     PortfolioMetrics.totalGainPercent m = NaN /\
     ~ divisionsGuarded m) /\
  (exists m h,
     loadPortfolioMetrics stocksDb [txnAAPL buy 10 0 0] = SetMetrics m /\
     PortfolioMetrics.holdings m = [h] /\
     Holding.totalCost h = zero /\
     Holding.unrealizedGainPercent h = NaN /\
     Holding.weight h = NaN).
Proof.
  split.
  - eexists. split; [reflexivity|]. repeat split.
    intros [H _]. specialize (H eq_refl). discriminate H.
  - eexists. eexists. split; [reflexivity|]. split; [reflexivity|].
    repeat split.
Qed.

(** ** The buy that opened a position *)

Lemma app_snoc_split {A : Type} (l : list A) (u : A) (l1 l2 : list A) :
  l ++ [u] = l1 ++ l2 ->
  (l2 = [] /\ l1 = l ++ [u]) \/ (exists l2', l2 = l2' ++ [u] /\ l = l1 ++ l2').
Proof.
  intros E. induction l2 as [|x l2 _] using rev_ind.
  - left. rewrite app_nil_r in E. auto.
  - right. rewrite app_assoc in E. apply app_inj_tail in E as [E1 E2].
    subst. now exists l2.
Qed.

Lemma processTxn_get_other stock txn st k :
  k <> Stock.symbol stock ->
  JSMap.get k (loop_holdings (processTxn stock txn st)) =
  JSMap.get k (loop_holdings st).
Proof.
  intros Hne. unfold processTxn.
  destruct (Transaction.transaction_type txn);
    destruct (JSMap.get (Stock.symbol stock) (loop_holdings st)); simpl;
    try (apply get_set_other; congruence); auto.
  destruct (leb _ _); simpl;
    [apply get_delete_other | apply get_set_other]; congruence.
Qed.

Lemma openedPosition_snoc db docs u k h h' st' :
  openedPosition db docs k h ->
  loop db (docs ++ [u]) initialState = Some st' ->
  JSMap.get k (loop_holdings st') = Some h' ->
  Holding.stock h' = Holding.stock h ->
  Holding.currentPrice h' = Holding.currentPrice h ->
  Holding.currentValue h' = Holding.currentValue h ->
  (~ resolvesTo db u k -> Holding.quantity h' = Holding.quantity h) ->
  openedPosition db (docs ++ [u]) k h'.
Proof.
  intros (t & post & (pre & Hd & Hty & Hres & Habs & Hever)
          & Hdb & Hsym & Hcp & Hcv & Hq) Hrun Hget Hs Hp Hv Hqty.
  exists t, (post ++ [u]). split.
  - exists pre. split.
    { rewrite Hd, <- app_assoc. reflexivity. }
    repeat split; auto.
    intros post1 post2 E. apply app_snoc_split in E as [[_ ->]|[l2 [_ ->]]].
    + exists st'. split.
      * rewrite <- Hrun, Hd, <- app_assoc. reflexivity.
      * congruence.
    + apply (Hever post1 l2 eq_refl).
  - rewrite Hs, Hp, Hv. repeat split; auto.
    intros Hno. rewrite Hqty.
    + apply Hq. intros v Hv'. apply Hno. apply in_or_app. now left.
    + apply Hno. apply in_or_app. right. now left.
Qed.

Lemma opening_invariant db docs : forall st,
  loop db docs initialState = Some st ->
  forall k h, JSMap.get k (loop_holdings st) = Some h ->
  openedPosition db docs k h.
Proof.
  induction docs as [|u docs IH] using rev_ind; intros st Hrun k h Hget.
  - injection Hrun as <-. discriminate Hget.
  - pose proof Hrun as Hl. rewrite loop_snoc in Hl.
    destruct (loop db docs initialState) as [st0|] eqn:E0; [|discriminate].
    pose proof (loop_NoDup _ _ _ _ E0 initial_NoDup) as Hnd.
    specialize (IH st0 eq_refl).
    unfold iteration in Hl.
    destruct (db (Transaction.stock_id u)) as [|[stock|]] eqn:Edb;
      try discriminate; injection Hl as <-.
    + destruct (String.eqb_spec k (Stock.symbol stock)) as [->|Hne].
      * assert (resolvesTo db u (Stock.symbol stock)) as Hres
          by (exists stock; auto).
        pose proof Hget as Hget'. unfold processTxn in Hget.
        destruct (Transaction.transaction_type u) eqn:Ety;
          destruct (JSMap.get (Stock.symbol stock) (loop_holdings st0))
            as [h0|] eqn:G0; simpl in Hget.
        -- rewrite get_set_same in Hget. injection Hget as <-.
           eapply openedPosition_snoc; eauto; try reflexivity.
           intros Hn. now destruct Hn.
        -- rewrite get_set_same in Hget. injection Hget as <-.
           exists u, []. split; [|simpl; repeat split; auto].
           exists docs. repeat split; auto.
           ++ exists st0. auto.
           ++ intros post1 post2 E. symmetry in E.
              apply app_eq_nil in E as [-> _].
              exists (processTxn stock u st0). split; [exact Hrun|].
              congruence.
        -- destruct (leb _ _); simpl in Hget.
           ++ rewrite get_delete_same in Hget by assumption. discriminate.
           ++ rewrite get_set_same in Hget. injection Hget as <-.
              eapply openedPosition_snoc; eauto; try reflexivity.
              intros Hn. now destruct Hn.
        -- congruence.
      * rewrite processTxn_get_other in Hget by assumption.
        eapply openedPosition_snoc; eauto.
        now rewrite processTxn_get_other.
    + eapply openedPosition_snoc; eauto.
Qed.

(** C3, as the code has it.  When every fetch resolves, each holding handed
    to [setMetrics] has for current price the price of the buy that opened
    the position (the buy processed while its symbol had no holding), not
    the price of a later transaction; and when nothing was processed for
    the symbol after that buy, its current value is quantity * current
    price. *)
Theorem currentPrice_is_opening_buy_price
    (db : StocksCollection) (docs : list Transaction.t) :
  fetched db docs ->
  exists m,
    loadPortfolioMetrics db docs = SetMetrics m /\
    forall h, In h (PortfolioMetrics.holdings m) ->
      exists t post,
        openingBuy db docs (Stock.symbol (Holding.stock h)) t post /\
        Holding.currentPrice h = Transaction.price t /\
        ((forall u, In u post ->
            ~ resolvesTo db u (Stock.symbol (Holding.stock h))) ->
         Holding.currentValue h =
           (Holding.quantity h * Holding.currentPrice h)%num).
Proof.
  intros Hf. unfold loadPortfolioMetrics.
  destruct (loop_fetched _ _ Hf initialState) as [st Hst]. rewrite Hst.
  eexists. split; [reflexivity|]. intros h Hin.
  unfold summarize in Hin. simpl in Hin.
  apply in_map_iff in Hin as [h0 [<- Hin]]. simpl.
  apply In_values_get in Hin as [k Hget];
    [|exact (loop_NoDup _ _ _ _ Hst initial_NoDup)].
  destruct (opening_invariant _ _ _ Hst _ _ Hget)
    as (t & post & Hopen & _ & Hsym & Hcp & Hcv & Hq).
  exists t, post. rewrite Hsym. repeat split; auto.
  intros Hno. now rewrite Hcv, Hcp, (Hq Hno).
Qed.

Lemma currentPrice_is_opening_buy_price_witness :
  exists m,
    loadPortfolioMetrics stocksDb [txnAAPL buy 10 100 0; txnAAPL sell 4 110 0]
      = SetMetrics m /\
    forall h, In h (PortfolioMetrics.holdings m) ->
      exists t post,
        openingBuy stocksDb [txnAAPL buy 10 100 0; txnAAPL sell 4 110 0]
          (Stock.symbol (Holding.stock h)) t post /\
        Holding.currentPrice h = Transaction.price t /\
        ((forall u, In u post ->
            ~ resolvesTo stocksDb u (Stock.symbol (Holding.stock h))) ->
         Holding.currentValue h =
           (Holding.quantity h * Holding.currentPrice h)%num).
Proof.
  apply currentPrice_is_opening_buy_price. solve_fetched.
Defined.

(** C3, as stated, fails: after a buy of 10 at 100 and a sell of 4 at 110
    the last transaction processed for AAPL is the sell, at price 110, and
    the holding's current price is still 100. *)
Lemma currentPrice_not_last_processed_price :
  exists m h,
    loadPortfolioMetrics stocksDb [txnAAPL buy 10 100 0; txnAAPL sell 4 110 0]
      = SetMetrics m /\
    PortfolioMetrics.holdings m = [h] /\
    lastProcessedFor stocksDb [txnAAPL buy 10 100 0; txnAAPL sell 4 110 0]
      (Stock.symbol (Holding.stock h)) (txnAAPL sell 4 110 0) /\
    Transaction.price (txnAAPL sell 4 110 0) = of_Z 110 /\
    Holding.currentPrice h = of_Z 100 /\
    Holding.currentPrice h <> Transaction.price (txnAAPL sell 4 110 0).
Proof.
  eexists. eexists. split; [reflexivity|]. split; [reflexivity|].
  split; [|split; [reflexivity|split; [reflexivity|]]].
  - exists [txnAAPL buy 10 100 0], []. split; [reflexivity|]. split.
    + exists AAPL. split; reflexivity.
    + intros u [].
  - vm_compute. discriminate.
Qed.

(** ** Rounding keeps the sign of a non-zero mantissa *)

Section Rounding.
Local Open Scope Z_scope.

Lemma digits2_pos_lower (m : positive) :
  2 ^ (Zpos (digits2_pos m) - 1) <= Zpos m.
Proof.
  induction m as [p IH|p IH|]; simpl digits2_pos.
  - rewrite Pos2Z.inj_succ.
    replace (Z.succ (Zpos (digits2_pos p)) - 1) with (Z.succ (Zpos (digits2_pos p) - 1)) by lia.
    rewrite Z.pow_succ_r by lia. lia.
  - rewrite Pos2Z.inj_succ.
    replace (Z.succ (Zpos (digits2_pos p)) - 1) with (Z.succ (Zpos (digits2_pos p) - 1)) by lia.
    rewrite Z.pow_succ_r by lia. lia.
  - simpl. lia.
Qed.

Lemma shr_1_half mrs : 0 <= shr_m mrs -> shr_m (shr_1 mrs) = shr_m mrs / 2.
Proof.
  rewrite <- Z.div2_div.
  destruct mrs as [m r s]. simpl. destruct m as [|[p|p|]|p]; simpl; try reflexivity; lia.
Qed.

Lemma iter_shr_1 p : forall mrs, 0 <= shr_m mrs ->
  shr_m (iter_pos shr_1 p mrs) = shr_m mrs / 2 ^ Zpos p.
Proof.
  assert (forall q, 0 < 2 ^ Zpos q) as Hpow by (intros q; apply Z.pow_pos_nonneg; lia).
  induction p as [p IH|p IH|]; intros mrs Hm; simpl iter_pos.
  - assert (0 <= shr_m (shr_1 mrs)) as H1
      by (rewrite shr_1_half by assumption; apply Z.div_pos; lia).
    assert (0 <= shr_m (iter_pos shr_1 p (shr_1 mrs))) as H2
      by (rewrite IH by assumption; apply Z.div_pos; auto).
    rewrite IH, IH, shr_1_half by assumption.
    pose proof (Hpow p).
    rewrite !Z.div_div by lia.
    rewrite (Pos2Z.inj_xI p).
    replace (2 * Zpos p + 1) with (1 + Zpos p + Zpos p) by lia.
    rewrite !Z.pow_add_r, Z.pow_1_r by lia. f_equal. ring.
  - assert (0 <= shr_m (iter_pos shr_1 p mrs)) as H2
      by (rewrite IH by assumption; apply Z.div_pos; auto).
    rewrite IH, IH by assumption.
    pose proof (Hpow p).
    rewrite !Z.div_div by lia.
    rewrite (Pos2Z.inj_xO p).
    replace (2 * Zpos p) with (Zpos p + Zpos p) by lia.
    rewrite !Z.pow_add_r by lia. f_equal.
  - rewrite shr_1_half by assumption. reflexivity.
Qed.

Lemma shr_fexp_pos m e l :
  0 < m -> emin prec emax <= e ->
  0 < shr_m (fst (shr_fexp prec emax m e l)) /\
  emin prec emax <= snd (shr_fexp prec emax m e l).
Proof.
  intros Hm He. destruct m as [|mp|mp]; try lia.
  unfold shr_fexp, shr. simpl Zdigits2.
  assert (shr_m (shr_record_of_loc (Zpos mp) l) = Zpos mp) as Hrec
    by (destruct l as [|[]]; reflexivity).
  destruct (fexp prec emax (Zpos (digits2_pos mp) + e) - e) as [|p|p] eqn:En;
    simpl fst; simpl snd; rewrite ?Hrec; try (split; lia).
  unfold fexp, emin, prec, emax in *.
  split; [|lia].
  rewrite iter_shr_1 by (rewrite Hrec; lia). rewrite Hrec.
  apply Z.div_str_pos. split.
  - apply Z.pow_pos_nonneg; lia.
  - apply Z.le_trans with (2 ^ (Zpos (digits2_pos mp) - 1)).
    + apply Z.pow_le_mono_r; lia.
    + apply digits2_pos_lower.
Qed.

Lemma round_nearest_even_pos m l : 0 < m -> 0 < round_nearest_even m l.
Proof.
  intros Hm. destruct l as [|[]]; simpl; try destruct (Z.even m); lia.
Qed.

Lemma binary_round_aux_sign sx m e l :
  0 < m -> emin prec emax <= e ->
  signedNonZero sx (binary_round_aux prec emax sx m e l).
Proof.
  intros Hm He. unfold binary_round_aux.
  pose proof (shr_fexp_pos m e l Hm He) as [H1 H2].
  destruct (shr_fexp prec emax m e l) as [mrs' e']. simpl in H1, H2.
  pose proof (shr_fexp_pos _ e' loc_Exact
                (round_nearest_even_pos _ (loc_of_shr_record mrs') H1) H2)
    as [H3 H4].
  destruct (shr_fexp prec emax _ e' loc_Exact) as [mrs'' e'']. simpl in H3, H4.
  destruct (shr_m mrs'') as [|q|q]; try lia.
  destruct (Z.leb e'' (emax - prec)); simpl; auto.
Qed.

Lemma binary_round_sign sx m e :
  emin prec emax <= e -> signedNonZero sx (binary_round prec emax sx m e).
Proof.
  intros He. unfold binary_round, shl_align.
  destruct (fexp prec emax (Zpos (digits2_pos m) + e) - e) as [|d|d];
    apply binary_round_aux_sign; try lia.
  unfold fexp. lia.
Qed.

Lemma positive_real_held x : positive_real x = true -> heldQuantity x.
Proof.
  destruct x as [| | |[] m e]; try discriminate. simpl.
  unfold bounded, canonical_mantissa. intros H.
  apply andb_prop in H as [H _]. apply Z.eqb_eq in H.
  unfold fexp in H. lia.
Qed.

Lemma add_held x y : heldQuantity x -> heldQuantity y -> heldQuantity (x + y)%num.
Proof.
  destruct x as [[]|[]| |[] mx ex]; simpl; try tauto;
    destruct y as [[]|[]| |[] my ey]; simpl; try tauto.
  intros Hx Hy.
  destruct (shl_align mx ex (Z.min ex ey)) as [a ea].
  destruct (shl_align my ey (Z.min ex ey)) as [b eb]. simpl.
  pose proof (binary_round_sign false (a + b) (Z.min ex ey)) as H.
  destruct (binary_round prec emax false (a + b) (Z.min ex ey)) as [| | |s m e];
    simpl in H |- *; try (apply H; lia).
  - destruct s; [|tauto]. assert (true = false) by (apply H; lia). discriminate.
  - destruct s; [|apply H; lia]. assert (true = false) by (apply H; lia). discriminate.
Qed.

Lemma sub_held x y :
  heldQuantity x -> positive_real y = true ->
  leb (x - y)%num zero = true \/ heldQuantity (x - y)%num.
Proof.
  intros Hx Hy. pose proof (positive_real_held y Hy) as Hy'.
  destruct y as [| | |[] my ey]; try discriminate. simpl in Hy'.
  destruct x as [[]|[]| |[] mx ex]; simpl in Hx; try contradiction.
  - right. exact I.
  - unfold sub, SFsub. simpl cond_Zopp.
    destruct (shl_align mx ex (Z.min ex ey)) as [a ea].
    destruct (shl_align my ey (Z.min ex ey)) as [b eb]. simpl fst.
    destruct (Zpos a - Zpos b) as [|c|c] eqn:Ec; unfold binary_normalize.
    + left. reflexivity.
    + right. pose proof (binary_round_sign false c (Z.min ex ey)) as H.
      destruct (binary_round prec emax false c (Z.min ex ey)) as [|s| |s m e];
        simpl in H |- *; try (apply H; lia).
      * destruct s; [|tauto]. assert (true = false) by (apply H; lia). discriminate.
      * destruct s; [|apply H; lia]. assert (true = false) by (apply H; lia). discriminate.
    + left. pose proof (binary_round_sign true c (Z.min ex ey)) as H.
      destruct (binary_round prec emax true c (Z.min ex ey)) as [|s| |s m e];
        simpl in H; try (exfalso; apply H; lia).
      * rewrite H by lia. reflexivity.
      * destruct H as [-> _]; [lia|]. reflexivity.
Qed.

Lemma held_gt_zero x : heldQuantity x -> gtb x zero = true.
Proof.
  destruct x as [[]|[]| |[] m e]; simpl; try tauto; reflexivity.
Qed.

End Rounding.

(** ** Held quantities *)

Lemma Forall_values_set {V : Type} (P : V -> Prop) k v (m : JSMap.t V) :
  Forall P (JSMap.values m) -> P v -> Forall P (JSMap.values (JSMap.set k v m)).
Proof.
  intros Hm Hv. induction m as [|[k0 v0] m IH]; simpl.
  - now constructor.
  - inversion Hm; subst. destruct (String.eqb k k0); simpl; constructor; auto.
Qed.

Lemma Forall_values_delete {V : Type} (P : V -> Prop) k (m : JSMap.t V) :
  Forall P (JSMap.values m) -> Forall P (JSMap.values (JSMap.delete k m)).
Proof.
  intros Hm. induction m as [|[k0 v0] m IH]; simpl; auto.
  inversion Hm; subst. destruct (String.eqb k k0); simpl; auto.
Qed.

Lemma Forall_values_get {V : Type} (P : V -> Prop) k v (m : JSMap.t V) :
  Forall P (JSMap.values m) -> JSMap.get k m = Some v -> P v.
Proof.
  intros Hm Hget. rewrite Forall_forall in Hm. apply Hm.
  apply get_In in Hget. change v with (snd (k, v)). now apply in_map.
Qed.

Lemma processTxn_held stock txn st :
  positive_real (Transaction.quantity txn) = true ->
  Forall (fun h => heldQuantity (Holding.quantity h))
    (JSMap.values (loop_holdings st)) ->
  Forall (fun h => heldQuantity (Holding.quantity h))
    (JSMap.values (loop_holdings (processTxn stock txn st))).
Proof.
  intros Hq Hst. unfold processTxn.
  destruct (Transaction.transaction_type txn);
    destruct (JSMap.get (Stock.symbol stock) (loop_holdings st)) as [h|] eqn:G;
    simpl; auto.
  - apply Forall_values_set; auto. simpl.
    apply add_held; [|now apply positive_real_held].
    exact (Forall_values_get _ _ _ _ Hst G).
  - apply Forall_values_set; auto. simpl. now apply positive_real_held.
  - pose proof (Forall_values_get _ _ _ _ Hst G) as Hh. simpl in Hh.
    destruct (sub_held _ _ Hh Hq) as [Hle|Hheld].
    + rewrite Hle. simpl. now apply Forall_values_delete.
    + destruct (leb _ _); simpl.
      * now apply Forall_values_delete.
      * now apply Forall_values_set.
Qed.

Lemma loop_held db docs : forall st st',
  Forall (fun t => positive_real (Transaction.quantity t) = true) docs ->
  loop db docs st = Some st' ->
  Forall (fun h => heldQuantity (Holding.quantity h))
    (JSMap.values (loop_holdings st)) ->
  Forall (fun h => heldQuantity (Holding.quantity h))
    (JSMap.values (loop_holdings st')).
Proof.
  induction docs as [|t docs IH]; simpl; intros st st' Hpos.
  - now intros [= <-].
  - inversion Hpos as [|? ? Ht Hdocs]; subst.
    unfold iteration.
    destruct (db (Transaction.stock_id t)) as [|[stock|]]; try discriminate.
    + intros Hl Hst. apply (IH _ _ Hdocs Hl). now apply processTxn_held.
    + intros Hl Hst. now apply (IH _ _ Hdocs Hl).
Qed.

Lemma calculatePortfolioValue_positive transactions :
  Forall (fun r => gtb (PositionRow.quantity r) zero = true)
    (calculatePortfolioValue transactions).
Proof.
  unfold calculatePortfolioValue. apply Forall_forall. intros r Hin.
  apply in_map_iff in Hin as [[stockId holding] [<- Hin]].
  apply filter_In in Hin as [_ Hgt]. exact Hgt.
Qed.

(** C10.  When every transaction quantity is a positive real (and every
    fetch resolves), each holding handed to [setMetrics] has a quantity
    strictly greater than 0; the rows of [calculatePortfolioValue] have a
    quantity strictly greater than 0 as well. *)
Theorem held_quantities_positive
    (db : StocksCollection) (docs : list Transaction.t) :
  fetched db docs ->
  Forall (fun t => positive_real (Transaction.quantity t) = true) docs ->
  (exists m,
     loadPortfolioMetrics db docs = SetMetrics m /\
     Forall (fun h => gtb (Holding.quantity h) zero = true)
       (PortfolioMetrics.holdings m)) /\
  Forall (fun r => gtb (PositionRow.quantity r) zero = true)
    (calculatePortfolioValue docs).
Proof.
  intros Hf Hpos. split; [|apply calculatePortfolioValue_positive].
  unfold loadPortfolioMetrics.
  destruct (loop_fetched _ _ Hf initialState) as [st Hst]. rewrite Hst.
  eexists. split; [reflexivity|].
  assert (Forall (fun h => heldQuantity (Holding.quantity h))
            (JSMap.values (loop_holdings st))) as Hheld.
  { apply (loop_held _ _ _ _ Hpos Hst). constructor. }
  unfold summarize. simpl. apply Forall_forall. intros h Hin.
  apply in_map_iff in Hin as [h0 [<- Hin]]. simpl.
  apply held_gt_zero. rewrite Forall_forall in Hheld. now apply Hheld.
Qed.

Lemma held_quantities_positive_witness :
  (exists m,
     loadPortfolioMetrics stocksDb
       [txnAAPL buy 10 100 5; txnAAPL sell 4 110 0; txnAAPL buy 3 90 1]
       = SetMetrics m /\
     Forall (fun h => gtb (Holding.quantity h) zero = true)
       (PortfolioMetrics.holdings m)) /\
  Forall (fun r => gtb (PositionRow.quantity r) zero = true)
    (calculatePortfolioValue
       [txnAAPL buy 10 100 5; txnAAPL sell 4 110 0; txnAAPL buy 3 90 1]).
Proof.
  apply held_quantities_positive.
  - solve_fetched.
  - repeat constructor.
Defined.

(** * Further properties of the code *)

(** ** Rejected fetches *)

Lemma loop_None_iff db docs : forall st,
  loop db docs st = None <->
  Exists (fun t => db (Transaction.stock_id t) = Rejected) docs.
Proof.
  induction docs as [|t docs IH]; intros st; simpl.
  - split; [discriminate | intros H; inversion H].
  - unfold iteration.
    destruct (db (Transaction.stock_id t)) as [|[stock|]] eqn:E.
    + split; [intros _; now left | reflexivity].
    + rewrite IH. split; [now right|].
      intros H. inversion H; subst; [congruence | assumption].
    + rewrite IH. split; [now right|].
      intros H. inversion H; subst; [congruence | assumption].
Qed.

Lemma snapshot_consoleError_iff
    (db : StocksCollection) (docs : list Transaction.t) :
  loadPortfolioMetrics db docs = ConsoleError <->
  exists t, In t docs /\ db (Transaction.stock_id t) = Rejected.
Proof.
  rewrite <- Exists_exists, <- (loop_None_iff db docs initialState).
  unfold loadPortfolioMetrics.
  destruct (loop db docs initialState); split; congruence.
Qed.

(** X1.  A run of the whole function ends in the [catch] block, without
    calling [setMetrics], exactly when the transactions query is rejected
    or, the query having resolved, the stock fetch of some transaction of
    its snapshot is rejected - be it a transaction that would have been
    skipped or ignored. *)
Theorem consoleError_iff_a_fetch_rejected
    (transactions : QueryFetch) (db : StocksCollection) :
  loadPortfolioMetricsRun transactions db = ConsoleError <->
  transactions = QueryRejected \/
  exists docs t,
    transactions = QuerySnapshot docs /\ In t docs /\
    db (Transaction.stock_id t) = Rejected.
Proof.
  destruct transactions as [|docs]; simpl.
  - split; [now left | reflexivity].
  - rewrite snapshot_consoleError_iff. split.
    + intros [t [Hin Hrej]]. right. now exists docs, t.
    + intros [H|[docs' [t [[= <-] [Hin Hrej]]]]]; [discriminate|].
      now exists t.
Qed.

(** ** Positions since their opening buy *)

Lemma forSymbol_resolvesTo db S t :
  forSymbol db S t = true <-> resolvesTo db t S.
Proof.
  unfold forSymbol, resolvesTo. split.
  - destruct (db (Transaction.stock_id t)) as [|[stock|]]; try discriminate.
    intros H. apply String.eqb_eq in H. now exists stock.
  - intros [stock [-> <-]]. apply String.eqb_refl.
Qed.

Lemma openingBuy_snoc db docs u k t post st' :
  openingBuy db docs k t post ->
  loop db (docs ++ [u]) initialState = Some st' ->
  JSMap.get k (loop_holdings st') <> None ->
  openingBuy db (docs ++ [u]) k t (post ++ [u]).
Proof.
  intros (pre & Hd & Hty & Hres & Habs & Hever) Hrun Hget.
  exists pre. split.
  { rewrite Hd, <- app_assoc. reflexivity. }
  repeat split; auto.
  intros post1 post2 E. apply app_snoc_split in E as [[_ ->]|[l2 [_ ->]]].
  - exists st'. split; [|assumption].
    rewrite <- Hrun, Hd, <- app_assoc. reflexivity.
  - apply (Hever post1 l2 eq_refl).
Qed.

Lemma costSince_snoc db S t post u :
  costSince db S t (post ++ [u]) =
  if forSymbol db S u && isBuy u
  then (costSince db S t post + costOf u)%num
  else costSince db S t post.
Proof.
  unfold costSince. rewrite filter_app. simpl.
  destruct (forSymbol db S u && isBuy u); simpl.
  - now rewrite fold_left_app.
  - now rewrite app_nil_r.
Qed.

Lemma quantitySince_snoc db S t post u :
  quantitySince db S t (post ++ [u]) =
  if forSymbol db S u
  then match Transaction.transaction_type u with
       | buy => (quantitySince db S t post + Transaction.quantity u)%num
       | sell => (quantitySince db S t post - Transaction.quantity u)%num
       end
  else quantitySince db S t post.
Proof.
  unfold quantitySince. rewrite filter_app. simpl.
  destruct (forSymbol db S u); simpl.
  - now rewrite fold_left_app.
  - now rewrite app_nil_r.
Qed.

Lemma forSymbol_fetch db S u stock :
  db (Transaction.stock_id u) = Snapshot (Some stock) ->
  forSymbol db S u = String.eqb (Stock.symbol stock) S.
Proof. unfold forSymbol. now intros ->. Qed.

Lemma forSymbol_missing db S u :
  db (Transaction.stock_id u) = Snapshot None -> forSymbol db S u = false.
Proof. unfold forSymbol. now intros ->. Qed.

Lemma ledger_invariant db docs : forall st,
  loop db docs initialState = Some st ->
  forall k h, JSMap.get k (loop_holdings st) = Some h ->
  exists t post,
    openingBuy db docs k t post /\
    Stock.symbol (Holding.stock h) = k /\
    Holding.totalCost h = costSince db k t post /\
    Holding.quantity h = quantitySince db k t post /\
    Holding.currentPrice h = Transaction.price t /\
    Holding.currentValue h =
      (Transaction.quantity t * Transaction.price t)%num.
Proof.
  induction docs as [|u docs IH] using rev_ind; intros st Hrun k h Hget.
  - injection Hrun as <-. discriminate Hget.
  - pose proof Hrun as Hl. rewrite loop_snoc in Hl.
    destruct (loop db docs initialState) as [st0|] eqn:E0; [|discriminate].
    pose proof (loop_NoDup _ _ _ _ E0 initial_NoDup) as Hnd.
    specialize (IH st0 eq_refl).
    assert (JSMap.get k (loop_holdings st) <> None) as Hsome by congruence.
    unfold iteration in Hl.
    destruct (db (Transaction.stock_id u)) as [|[stock|]] eqn:Edb;
      try discriminate; injection Hl as <-.
    + destruct (String.eqb_spec (Stock.symbol stock) k) as [<-|Hne].
      * pose proof (forSymbol_fetch db (Stock.symbol stock) u stock Edb) as Hfor.
        rewrite String.eqb_refl in Hfor.
        unfold processTxn in Hget.
        destruct (Transaction.transaction_type u) eqn:Ety;
          destruct (JSMap.get (Stock.symbol stock) (loop_holdings st0))
            as [h0|] eqn:G0; simpl in Hget.
        -- rewrite get_set_same in Hget. injection Hget as <-.
           destruct (IH _ _ G0) as (t & post & Hopen & Hs & Hc & Hq & Hp & Hv).
           exists t, (post ++ [u]).
           split; [eapply openingBuy_snoc; eauto|].
           rewrite costSince_snoc, quantitySince_snoc, Hfor.
           unfold isBuy. rewrite Ety. simpl.
           rewrite Hc, Hq. repeat split; auto.
        -- rewrite get_set_same in Hget. injection Hget as <-.
           exists u, []. simpl. repeat split; auto.
           exists docs. repeat split; auto.
           ++ exists stock. auto.
           ++ exists st0. auto.
           ++ intros post1 post2 E. symmetry in E.
              apply app_eq_nil in E as [-> _].
              exists (processTxn stock u st0). split; [exact Hrun|].
              exact Hsome.
        -- destruct (leb _ _); simpl in Hget.
           ++ rewrite get_delete_same in Hget by assumption. discriminate.
           ++ rewrite get_set_same in Hget. injection Hget as <-.
              destruct (IH _ _ G0) as (t & post & Hopen & Hs & Hc & Hq & Hp & Hv).
              exists t, (post ++ [u]).
              split; [eapply openingBuy_snoc; eauto|].
              rewrite costSince_snoc, quantitySince_snoc, Hfor.
              unfold isBuy. rewrite Ety. simpl.
              rewrite Hc, Hq. repeat split; auto.
        -- congruence.
      * assert (k <> Stock.symbol stock) as Hne' by congruence.
        rewrite processTxn_get_other in Hget by assumption.
        destruct (IH _ _ Hget) as (t & post & Hopen & Hs & Hc & Hq & Hp & Hv).
        exists t, (post ++ [u]).
        split; [eapply openingBuy_snoc; eauto|].
        rewrite costSince_snoc, quantitySince_snoc.
        rewrite (forSymbol_fetch db k u stock Edb).
        destruct (String.eqb_spec (Stock.symbol stock) k); [congruence|].
        simpl. repeat split; auto.
    + destruct (IH _ _ Hget) as (t & post & Hopen & Hs & Hc & Hq & Hp & Hv).
      exists t, (post ++ [u]).
      split; [eapply openingBuy_snoc; eauto|].
      rewrite costSince_snoc, quantitySince_snoc.
      rewrite (forSymbol_missing db k u Edb). simpl. repeat split; auto.
Qed.

Lemma In_holdings_summarize st h :
  In h (PortfolioMetrics.holdings (summarize st)) ->
  exists h0,
    In h0 (JSMap.values (loop_holdings st)) /\
    h = valueHolding (PortfolioMetrics.totalValue (summarize st)) h0.
Proof.
  unfold summarize. simpl. intros Hin.
  apply in_map_iff in Hin as [h0 [<- Hin]]. now exists h0.
Qed.

Lemma held_entry db docs st h :
  loop db docs initialState = Some st ->
  In h (JSMap.values (loop_holdings st)) ->
  JSMap.get (Stock.symbol (Holding.stock h)) (loop_holdings st) = Some h.
Proof.
  intros Hst Hin.
  apply In_values_get in Hin as [k Hget];
    [|exact (loop_NoDup _ _ _ _ Hst initial_NoDup)].
  destruct (ledger_invariant _ _ _ Hst _ _ Hget) as (_ & _ & _ & -> & _).
  exact Hget.
Qed.

(** X2.  When every fetch resolves, each holding handed to [setMetrics]
    carries as total cost the cost of the buy that opened the position plus
    the costs of the later buys processed for its symbol, in list order, and
    as quantity that buy's quantity plus the later buys and minus the later
    sells: a sell lowers the quantity and never the cost basis. *)
Theorem holding_ledger_since_opening
    (db : StocksCollection) (docs : list Transaction.t) :
  fetched db docs ->
  exists m,
    loadPortfolioMetrics db docs = SetMetrics m /\
    forall h, In h (PortfolioMetrics.holdings m) ->
      exists t post,
        openingBuy db docs (Stock.symbol (Holding.stock h)) t post /\
        Holding.totalCost h =
          costSince db (Stock.symbol (Holding.stock h)) t post /\
        Holding.quantity h =
          quantitySince db (Stock.symbol (Holding.stock h)) t post.
Proof.
  intros Hf. unfold loadPortfolioMetrics.
  destruct (loop_fetched _ _ Hf initialState) as [st Hst]. rewrite Hst.
  eexists. split; [reflexivity|]. intros h Hin.
  apply In_holdings_summarize in Hin as [h0 [Hin ->]]. simpl.
  pose proof (held_entry _ _ _ _ Hst Hin) as Hget.
  destruct (ledger_invariant _ _ _ Hst _ _ Hget)
    as (t & post & Hopen & _ & Hc & Hq & _).
  now exists t, post.
Qed.

Lemma holding_ledger_since_opening_witness :
  exists m,
    loadPortfolioMetrics stocksDb
      [txnAAPL buy 10 100 5; txnAAPL sell 4 110 0; txnAAPL buy 3 90 1]
      = SetMetrics m /\
    forall h, In h (PortfolioMetrics.holdings m) ->
      exists t post,
        openingBuy stocksDb
          [txnAAPL buy 10 100 5; txnAAPL sell 4 110 0; txnAAPL buy 3 90 1]
          (Stock.symbol (Holding.stock h)) t post /\
        Holding.totalCost h =
          costSince stocksDb (Stock.symbol (Holding.stock h)) t post /\
        Holding.quantity h =
          quantitySince stocksDb (Stock.symbol (Holding.stock h)) t post.
Proof.
  apply holding_ledger_since_opening. solve_fetched.
Defined.

(** X3.  When every fetch resolves, the current value of each holding
    handed to [setMetrics] is the quantity times the price of the buy that
    opened the position, whatever was bought or sold for the symbol
    afterwards, and its unrealized gain is that value minus its total
    cost. *)
Theorem currentValue_fixed_at_opening
    (db : StocksCollection) (docs : list Transaction.t) :
  fetched db docs ->
  exists m,
    loadPortfolioMetrics db docs = SetMetrics m /\
    forall h, In h (PortfolioMetrics.holdings m) ->
      exists t post,
        openingBuy db docs (Stock.symbol (Holding.stock h)) t post /\
        Holding.currentValue h =
          (Transaction.quantity t * Transaction.price t)%num /\
        Holding.unrealizedGain h =
          (Transaction.quantity t * Transaction.price t
           - Holding.totalCost h)%num.
Proof.
  intros Hf. unfold loadPortfolioMetrics.
  destruct (loop_fetched _ _ Hf initialState) as [st Hst]. rewrite Hst.
  eexists. split; [reflexivity|]. intros h Hin.
  apply In_holdings_summarize in Hin as [h0 [Hin ->]]. simpl.
  pose proof (held_entry _ _ _ _ Hst Hin) as Hget.
  destruct (ledger_invariant _ _ _ Hst _ _ Hget)
    as (t & post & Hopen & _ & _ & _ & _ & Hv).
  exists t, post. rewrite Hv. auto.
Qed.

Lemma currentValue_fixed_at_opening_witness :
  exists m,
    loadPortfolioMetrics stocksDb
      [txnAAPL buy 10 100 5; txnAAPL buy 3 90 1; txnAAPL sell 4 110 0]
      = SetMetrics m /\
    forall h, In h (PortfolioMetrics.holdings m) ->
      exists t post,
        openingBuy stocksDb
          [txnAAPL buy 10 100 5; txnAAPL buy 3 90 1; txnAAPL sell 4 110 0]
          (Stock.symbol (Holding.stock h)) t post /\
        Holding.currentValue h =
          (Transaction.quantity t * Transaction.price t)%num /\
        Holding.unrealizedGain h =
          (Transaction.quantity t * Transaction.price t
           - Holding.totalCost h)%num.
Proof.
  apply currentValue_fixed_at_opening. solve_fetched.
Defined.

(** X4.  When every fetch resolves, the holdings handed to [setMetrics]
    have pairwise distinct stock symbols (the React keys of the holdings
    tables). *)
Theorem holdings_symbols_distinct
    (db : StocksCollection) (docs : list Transaction.t) :
  fetched db docs ->
  exists m,
    loadPortfolioMetrics db docs = SetMetrics m /\
    NoDup (map (fun h => Stock.symbol (Holding.stock h))
             (PortfolioMetrics.holdings m)).
Proof.
  intros Hf. unfold loadPortfolioMetrics.
  destruct (loop_fetched _ _ Hf initialState) as [st Hst]. rewrite Hst.
  eexists. split; [reflexivity|].
  pose proof (loop_NoDup _ _ _ _ Hst initial_NoDup) as Hnd.
  unfold summarize. simpl. rewrite map_map. simpl.
  unfold JSMap.values. rewrite map_map.
  replace (map (fun x => Stock.symbol (Holding.stock (snd x))) (loop_holdings st))
    with (keys (loop_holdings st)); [assumption|].
  apply map_ext_in. intros [k h] Hin. simpl.
  apply In_get in Hin; [|assumption].
  now destruct (ledger_invariant _ _ _ Hst _ _ Hin) as (_ & _ & _ & -> & _).
Qed.

Lemma holdings_symbols_distinct_witness :
  exists m,
    loadPortfolioMetrics stocksDb
      [txnAAPL buy 10 100 5; txnAAPL sell 10 110 0; txnAAPL buy 3 90 1]
      = SetMetrics m /\
    NoDup (map (fun h => Stock.symbol (Holding.stock h))
             (PortfolioMetrics.holdings m)).
Proof.
  apply holdings_symbols_distinct. solve_fetched.
Defined.

(** ** One symbol at a time *)

Lemma get_processTxn_congr stock txn st1 st2 :
  NoDup (keys (loop_holdings st1)) ->
  NoDup (keys (loop_holdings st2)) ->
  JSMap.get (Stock.symbol stock) (loop_holdings st1) =
  JSMap.get (Stock.symbol stock) (loop_holdings st2) ->
  JSMap.get (Stock.symbol stock) (loop_holdings (processTxn stock txn st1)) =
  JSMap.get (Stock.symbol stock) (loop_holdings (processTxn stock txn st2)).
Proof.
  intros Hnd1 Hnd2 Heq. unfold processTxn. rewrite <- Heq.
  destruct (Transaction.transaction_type txn);
    destruct (JSMap.get (Stock.symbol stock) (loop_holdings st1)) as [h|] eqn:G;
    simpl; repeat rewrite get_set_same; auto.
  - destruct (leb _ _); simpl.
    + now rewrite !get_delete_same.
    + now repeat rewrite get_set_same.
  - congruence.
Qed.

Lemma loop_filter_entry db S docs : forall st1 st2 st1',
  NoDup (keys (loop_holdings st1)) ->
  NoDup (keys (loop_holdings st2)) ->
  JSMap.get S (loop_holdings st1) = JSMap.get S (loop_holdings st2) ->
  loop db docs st1 = Some st1' ->
  exists st2',
    loop db (filter (forSymbol db S) docs) st2 = Some st2' /\
    JSMap.get S (loop_holdings st1') = JSMap.get S (loop_holdings st2').
Proof.
  induction docs as [|t docs IH]; simpl; intros st1 st2 st1' Hnd1 Hnd2 Heq.
  - intros [= <-]. now exists st2.
  - unfold forSymbol at 1, iteration at 1.
    destruct (db (Transaction.stock_id t)) as [|[stock|]] eqn:Edb;
      try discriminate.
    + destruct (String.eqb_spec (Stock.symbol stock) S) as [<-|Hne].
      * intros Hl. simpl. unfold iteration. rewrite Edb.
        apply (IH (processTxn stock t st1) (processTxn stock t st2) st1');
          auto using processTxn_NoDup.
        now apply get_processTxn_congr.
      * intros Hl. apply (IH (processTxn stock t st1) st2 st1');
          auto using processTxn_NoDup.
        rewrite processTxn_get_other by congruence. exact Heq.
    + intros Hl. now apply (IH _ _ _ Hnd1 Hnd2).
Qed.

Lemma sameButWeight_valued tv tv' h :
  sameButWeight (valueHolding tv h) (valueHolding tv' h).
Proof. repeat split. Qed.

Lemma In_summarize_holdings st h0 :
  In h0 (JSMap.values (loop_holdings st)) ->
  In (valueHolding (PortfolioMetrics.totalValue (summarize st)) h0)
    (PortfolioMetrics.holdings (summarize st)).
Proof. unfold summarize. simpl. apply in_map. Qed.

Lemma get_In_values {V : Type} k (v : V) (m : JSMap.t V) :
  JSMap.get k m = Some v -> In v (JSMap.values m).
Proof.
  intros Hget. apply get_In in Hget.
  change v with (snd (k, v)). now apply in_map.
Qed.

(** X5.  When every fetch resolves, the holding of a symbol is decided by
    the transactions processed for that symbol alone: the run on the whole
    list and the run on the transactions of symbol [S] only hand
    [setMetrics] the same holding for [S], field by field, [weight]
    excepted. *)
Theorem holding_decided_by_own_transactions
    (db : StocksCollection) (docs : list Transaction.t) (S : string) :
  fetched db docs ->
  exists m m',
    loadPortfolioMetrics db docs = SetMetrics m /\
    loadPortfolioMetrics db (filter (forSymbol db S) docs) = SetMetrics m' /\
    (forall h, In h (PortfolioMetrics.holdings m) ->
       Stock.symbol (Holding.stock h) = S ->
       exists h', In h' (PortfolioMetrics.holdings m') /\ sameButWeight h h') /\
    (forall h', In h' (PortfolioMetrics.holdings m') ->
       exists h, In h (PortfolioMetrics.holdings m) /\
                 Stock.symbol (Holding.stock h) = S /\ sameButWeight h h').
Proof.
  intros Hf. unfold loadPortfolioMetrics.
  destruct (loop_fetched _ _ Hf initialState) as [st Hst]. rewrite Hst.
  destruct (loop_filter_entry db S docs _ initialState _
              initial_NoDup initial_NoDup eq_refl Hst) as [st2 [Hst2 Heq]].
  rewrite Hst2. eexists. eexists. split; [reflexivity|]. split; [reflexivity|].
  split.
  - intros h Hin Hsym.
    apply In_holdings_summarize in Hin as [h0 [Hin ->]]. simpl in Hsym.
    pose proof (held_entry _ _ _ _ Hst Hin) as Hget.
    rewrite Hsym, Heq in Hget.
    exists (valueHolding (PortfolioMetrics.totalValue (summarize st2)) h0).
    split; [|apply sameButWeight_valued].
    apply In_summarize_holdings. now apply get_In_values in Hget.
  - intros h' Hin.
    apply In_holdings_summarize in Hin as [h0 [Hin ->]].
    pose proof (held_entry _ _ _ _ Hst2 Hin) as Hget.
    destruct (ledger_invariant _ _ _ Hst2 _ _ Hget)
      as (t & post & (pre & Hd & _ & Hres & _) & _).
    assert (In t (filter (forSymbol db S) docs)) as Ht.
    { rewrite Hd. apply in_or_app. right. now left. }
    apply filter_In in Ht as [_ Ht]. apply forSymbol_resolvesTo in Ht.
    destruct Hres as [s1 [E1 Hs1]]. destruct Ht as [s2 [E2 Hs2]].
    assert (Stock.symbol (Holding.stock h0) = S) as Hsym by congruence.
    rewrite Hsym, <- Heq in Hget.
    exists (valueHolding (PortfolioMetrics.totalValue (summarize st)) h0).
    split; [|split; [exact Hsym | apply sameButWeight_valued]].
    apply In_summarize_holdings. now apply get_In_values in Hget.
Qed.

Lemma holding_decided_by_own_transactions_witness :
  exists m m',
    loadPortfolioMetrics stocksDb
      [txnAAPL buy 10 100 5; txnOn "stock-gone" buy 1 1 1; txnAAPL sell 4 110 0]
      = SetMetrics m /\
    loadPortfolioMetrics stocksDb
      (filter (forSymbol stocksDb "AAPL")
         [txnAAPL buy 10 100 5; txnOn "stock-gone" buy 1 1 1;
          txnAAPL sell 4 110 0]) = SetMetrics m' /\
    (forall h, In h (PortfolioMetrics.holdings m) ->
       Stock.symbol (Holding.stock h) = "AAPL" ->
       exists h', In h' (PortfolioMetrics.holdings m') /\ sameButWeight h h') /\
    (forall h', In h' (PortfolioMetrics.holdings m') ->
       exists h, In h (PortfolioMetrics.holdings m) /\
                 Stock.symbol (Holding.stock h) = "AAPL" /\ sameButWeight h h').
Proof.
  apply holding_decided_by_own_transactions. solve_fetched.
Defined.

(** ** A quantity that is not a number *)

Lemma add_NaN_r (x : number) : (x + NaN)%num = NaN.
Proof. destruct x as [[]|[]| |[] m e]; reflexivity. Qed.

Lemma nan_entry_persists db S docs : forall st st' h,
  loop db docs st = Some st' ->
  JSMap.get S (loop_holdings st) = Some h ->
  Holding.quantity h = NaN ->
  exists h', JSMap.get S (loop_holdings st') = Some h' /\
             Holding.quantity h' = NaN.
Proof.
  induction docs as [|t docs IH]; simpl; intros st st' h.
  - intros [= <-]. eauto.
  - unfold iteration.
    destruct (db (Transaction.stock_id t)) as [|[stock|]]; try discriminate.
    + intros Hl Hget Hq.
      destruct (String.eqb_spec S (Stock.symbol stock)) as [->|Hne].
      * assert (exists h1,
                  JSMap.get (Stock.symbol stock)
                    (loop_holdings (processTxn stock t st)) = Some h1 /\
                  Holding.quantity h1 = NaN) as [h1 [G1 Q1]].
        { unfold processTxn. rewrite Hget, Hq.
          destruct (Transaction.transaction_type t); simpl;
            rewrite get_set_same; eexists; split; reflexivity. }
        exact (IH _ _ _ Hl G1 Q1).
      * apply (IH _ _ h Hl); auto.
        now rewrite processTxn_get_other.
    + intros Hl. now apply IH.
Qed.

(** X6.  A buy whose quantity is NaN (what [parseFloat] returns for an
    emptied field), processed for symbol [S], leaves a holding for [S] with
    quantity NaN that nothing processed afterwards removes or repairs: when
    every fetch resolves the holdings handed to [setMetrics] include it. *)
Theorem nan_quantity_is_never_removed
    (db : StocksCollection) (pre post : list Transaction.t)
    (t : Transaction.t) (S : string) :
  fetched db (pre ++ t :: post) ->
  Transaction.transaction_type t = buy ->
  resolvesTo db t S ->
  Transaction.quantity t = NaN ->
  exists m h,
    loadPortfolioMetrics db (pre ++ t :: post) = SetMetrics m /\
    In h (PortfolioMetrics.holdings m) /\
    Stock.symbol (Holding.stock h) = S /\
    Holding.quantity h = NaN.
Proof.
  intros Hf Hty [stock [Hdb Hsym]] Hq. unfold loadPortfolioMetrics.
  destruct (loop_fetched _ _ Hf initialState) as [st Hst]. rewrite Hst.
  pose proof Hst as Hrun. rewrite loop_app in Hrun.
  destruct (loop db pre initialState) as [st0|] eqn:E0; [|discriminate].
  simpl in Hrun. unfold iteration in Hrun. rewrite Hdb in Hrun.
  assert (exists h1,
            JSMap.get S (loop_holdings (processTxn stock t st0)) = Some h1 /\
            Holding.quantity h1 = NaN) as [h1 [G1 Q1]].
  { subst S. unfold processTxn. rewrite Hty, Hq.
    destruct (JSMap.get (Stock.symbol stock) (loop_holdings st0)); simpl;
      rewrite get_set_same; eexists; (split; [reflexivity|]); simpl; auto.
    apply add_NaN_r. }
  destruct (nan_entry_persists _ _ _ _ _ _ Hrun G1 Q1) as [h' [G' Q']].
  eexists. exists (valueHolding (PortfolioMetrics.totalValue (summarize st)) h').
  split; [reflexivity|]. split; [|split].
  - apply In_summarize_holdings. now apply get_In_values in G'.
  - simpl.
    now destruct (ledger_invariant _ _ _ Hst _ _ G') as (_ & _ & _ & -> & _).
  - exact Q'.
Qed.

Lemma nan_quantity_is_never_removed_witness :
  exists m h,
    loadPortfolioMetrics stocksDb
      ([txnAAPL buy 10 100 5]
       ++ {| Transaction.stock_id := "stock-aapl";
             Transaction.transaction_type := buy;
             Transaction.quantity := NaN;
             Transaction.price := of_Z 100;
             Transaction.fees := zero;
             Transaction.stock := None |}
       :: [txnAAPL sell 50 110 0]) = SetMetrics m /\
    In h (PortfolioMetrics.holdings m) /\
    Stock.symbol (Holding.stock h) = "AAPL" /\
    Holding.quantity h = NaN.
Proof.
  apply nan_quantity_is_never_removed.
  - solve_fetched.
  - reflexivity.
  - exists AAPL. split; reflexivity.
  - reflexivity.
Defined.

(** ** Closing a position and opening it again *)

Lemma sub_self (x : number) : isFinite x = true -> (x - x)%num = zero.
Proof.
  destruct x as [[]| | |s m e]; try discriminate; try reflexivity.
  intros _. unfold sub, SFsub.
  destruct (shl_align m e (Z.min e e)) as [a ea]. simpl fst.
  now rewrite Z.sub_diag.
Qed.

Lemma set_absent_snoc {V : Type} k (v : V) (m : JSMap.t V) :
  JSMap.get k m = None -> JSMap.set k v m = m ++ [(k, v)].
Proof.
  induction m as [|[k0 v0] m IH]; simpl; auto.
  destruct (String.eqb k k0); [discriminate|].
  intros H. now rewrite IH.
Qed.

(** X7.  Selling exactly the (finite) quantity held closes the position,
    and a buy of the same symbol right after it opens a new one: its entry
    is the one this buy alone gives in an empty portfolio (average price =
    its price, cost = its cost), placed after all other holdings, while
    the running total cost keeps the costs of the closed position. *)
Theorem sell_all_then_buy_starts_afresh
    (db : StocksCollection) (pre : list Transaction.t)
    (s b : Transaction.t) (stock1 stock2 : Stock.t)
    (st : LoopState) (h : Holding.t) :
  loop db pre initialState = Some st ->
  db (Transaction.stock_id s) = Snapshot (Some stock1) ->
  Transaction.transaction_type s = sell ->
  db (Transaction.stock_id b) = Snapshot (Some stock2) ->
  Transaction.transaction_type b = buy ->
  Stock.symbol stock2 = Stock.symbol stock1 ->
  JSMap.get (Stock.symbol stock1) (loop_holdings st) = Some h ->
  isFinite (Holding.quantity h) = true ->
  Transaction.quantity s = Holding.quantity h ->
  exists st',
    loop db (pre ++ [s; b]) initialState = Some st' /\
    loop_holdings st' =
      JSMap.delete (Stock.symbol stock1) (loop_holdings st)
      ++ loop_holdings (processTxn stock2 b initialState) /\
    loop_totalCost st' = (loop_totalCost st + costOf b)%num.
Proof.
  intros Hpre Hs Htys Hb Htyb Hsym Hget Hfin Hq.
  pose proof (loop_NoDup _ _ _ _ Hpre initial_NoDup) as Hnd.
  rewrite loop_app, Hpre. simpl. unfold iteration. rewrite Hs, Hb.
  eexists. split; [reflexivity|].
  assert (processTxn stock1 s st =
          {| loop_holdings :=
               JSMap.delete (Stock.symbol stock1) (loop_holdings st);
             loop_totalCost := loop_totalCost st |}) as ->.
  { unfold processTxn. rewrite Htys, Hget. cbv zeta. simpl Holding.quantity.
    rewrite Hq, sub_self by assumption. reflexivity. }
  unfold processTxn. rewrite Htyb, Hsym. simpl loop_holdings.
  rewrite get_delete_same by assumption. simpl.
  split; [|reflexivity].
  apply set_absent_snoc. now apply get_delete_same.
Qed.

Lemma sell_all_then_buy_starts_afresh_witness :
  exists st st',
    loop stocksDb [txnAAPL buy 10 100 5] initialState = Some st /\
    loop stocksDb ([txnAAPL buy 10 100 5]
                   ++ [txnAAPL sell 10 120 0; txnAAPL buy 3 90 1])
      initialState = Some st' /\
    loop_holdings st' =
      JSMap.delete "AAPL" (loop_holdings st)
      ++ loop_holdings (processTxn AAPL (txnAAPL buy 3 90 1) initialState) /\
    loop_totalCost st' = (loop_totalCost st + costOf (txnAAPL buy 3 90 1))%num.
Proof.
  eexists.
  destruct (sell_all_then_buy_starts_afresh stocksDb [txnAAPL buy 10 100 5]
              (txnAAPL sell 10 120 0) (txnAAPL buy 3 90 1) AAPL AAPL _ _
              eq_refl eq_refl eq_refl eq_refl eq_refl eq_refl eq_refl
              eq_refl eq_refl) as [st' H].
  exists st'. split; [reflexivity | exact H].
Defined.

(** ** Sector allocation *)

Lemma In_keys_set {V : Type} s k (v : V) (m : JSMap.t V) :
  In s (keys (JSMap.set k v m)) <-> s = k \/ In s (keys m).
Proof.
  destruct (JSMap.get k m) as [v0|] eqn:E.
  - rewrite (keys_set_present _ _ _ _ E). split; [now right|].
    intros [->|H]; auto.
    destruct (in_dec string_dec k (keys m)) as [Hin|Hout]; auto.
    apply get_None_keys in Hout. congruence.
  - rewrite (keys_set_absent _ _ _ E), in_app_iff. simpl.
    split; [intros [H|[H|[]]]; auto | intros [H|H]; auto].
Qed.

Lemma keys_fold_addSector hs : forall sm,
  NoDup (keys sm) ->
  NoDup (keys (fold_left addSector hs sm)) /\
  forall s, In s (keys (fold_left addSector hs sm)) <->
            In s (keys sm) \/ exists h, In h hs /\ sectorOf h = s.
Proof.
  induction hs as [|h hs IH]; simpl; intros sm Hnd.
  - split; auto. intros s. split; [now left|].
    intros [H|[h [[] _]]]. exact H.
  - destruct (IH (addSector sm h)) as [Hnd' Hin].
    { unfold addSector. now apply NoDup_keys_set. }
    split; auto. intros s. rewrite Hin. unfold addSector at 1.
    rewrite In_keys_set. split.
    + intros [[->|H]|[h' [H1 H2]]]; eauto.
    + intros [H|[h' [[<-|H1] H2]]]; eauto.
Qed.

Lemma sectorOf_nonempty h : sectorOf h <> "".
Proof.
  unfold sectorOf.
  destruct (String.eqb_spec (Stock.sector (Holding.stock h)) "");
    [discriminate | assumption].
Qed.

Lemma sectorOf_valued tv h : sectorOf (valueHolding tv h) = sectorOf h.
Proof. reflexivity. Qed.

Lemma sector_names st :
  map SectorSlice.sector (PortfolioMetrics.sectorAllocation (summarize st)) =
  keys (fold_left addSector (PortfolioMetrics.holdings (summarize st))
          JSMap.empty).
Proof.
  unfold summarize. simpl. unfold JSMap.entries, keys. rewrite map_map.
  apply map_ext. now intros [s v].
Qed.

(** X8.  When every fetch resolves, the sector slices handed to
    [setMetrics] have pairwise distinct names, none of them empty (a stock
    without sector is filed under Unknown), and a name has a slice exactly
    when some holding is of that sector. *)
Theorem sector_slices_cover_holdings
    (db : StocksCollection) (docs : list Transaction.t) :
  fetched db docs ->
  exists m,
    loadPortfolioMetrics db docs = SetMetrics m /\
    NoDup (map SectorSlice.sector (PortfolioMetrics.sectorAllocation m)) /\
    ~ In "" (map SectorSlice.sector (PortfolioMetrics.sectorAllocation m)) /\
    forall s,
      In s (map SectorSlice.sector (PortfolioMetrics.sectorAllocation m)) <->
      exists h, In h (PortfolioMetrics.holdings m) /\ sectorOf h = s.
Proof.
  intros Hf. unfold loadPortfolioMetrics.
  destruct (loop_fetched _ _ Hf initialState) as [st ->].
  eexists. split; [reflexivity|]. rewrite sector_names.
  destruct (keys_fold_addSector (PortfolioMetrics.holdings (summarize st))
              JSMap.empty) as [Hnd Hin]; [constructor|].
  assert (forall s,
            In s (keys (fold_left addSector
                          (PortfolioMetrics.holdings (summarize st))
                          JSMap.empty)) <->
            exists h, In h (PortfolioMetrics.holdings (summarize st)) /\
                      sectorOf h = s) as Hin'.
  { intros s. rewrite Hin. simpl. tauto. }
  split; [exact Hnd|]. split; [|exact Hin'].
  intros H. apply Hin' in H as [h [_ H]]. now apply sectorOf_nonempty in H.
Qed.

Lemma sector_slices_cover_holdings_witness :
  exists m,
    loadPortfolioMetrics stocksDb [txnAAPL buy 10 100 5] = SetMetrics m /\
    NoDup (map SectorSlice.sector (PortfolioMetrics.sectorAllocation m)) /\
    ~ In "" (map SectorSlice.sector (PortfolioMetrics.sectorAllocation m)) /\
    forall s,
      In s (map SectorSlice.sector (PortfolioMetrics.sectorAllocation m)) <->
      exists h, In h (PortfolioMetrics.holdings m) /\ sectorOf h = s.
Proof.
  apply sector_slices_cover_holdings. solve_fetched.
Defined.

Lemma get_fold_addSector s hs : forall sm,
  JSMap.get s (fold_left addSector hs sm) =
  fold_left (fun acc h => Some (or_zero acc + Holding.currentValue h)%num)
    (filter (fun h => String.eqb (sectorOf h) s) hs) (JSMap.get s sm).
Proof.
  induction hs as [|h hs IH]; simpl; intros sm; auto.
  rewrite IH. unfold addSector.
  destruct (String.eqb_spec (sectorOf h) s) as [<-|Hne]; simpl.
  - now rewrite get_set_same.
  - now rewrite get_set_other.
Qed.

(** X9.  When every fetch resolves, the value of each sector slice is the
    sum of the current values of the holdings of that sector, accumulated
    from 0 in the order of the holdings, except that a running sum that is
    0, -0 or NaN is replaced by 0 before the next holding is added; the
    slice's percentage is that value / [totalValue] * 100. *)
Theorem sector_slice_value
    (db : StocksCollection) (docs : list Transaction.t) :
  fetched db docs ->
  exists m,
    loadPortfolioMetrics db docs = SetMetrics m /\
    forall slice, In slice (PortfolioMetrics.sectorAllocation m) ->
      sectorValue (SectorSlice.sector slice) (PortfolioMetrics.holdings m)
        = Some (SectorSlice.value slice) /\
      SectorSlice.percentage slice =
        (SectorSlice.value slice / PortfolioMetrics.totalValue m * hundred)%num.
Proof.
  intros Hf. unfold loadPortfolioMetrics.
  destruct (loop_fetched _ _ Hf initialState) as [st ->].
  eexists. split; [reflexivity|]. intros slice Hin.
  destruct (keys_fold_addSector (PortfolioMetrics.holdings (summarize st))
              JSMap.empty) as [Hnd _]; [constructor|].
  unfold summarize in Hin. simpl in Hin.
  apply in_map_iff in Hin as [[s v] [<- Hin]]. simpl.
  split; [|reflexivity].
  unfold JSMap.entries in Hin. apply In_get in Hin; [|exact Hnd].
  rewrite get_fold_addSector in Hin. exact Hin.
Qed.

Lemma sector_slice_value_witness :
  exists m,
    loadPortfolioMetrics stocksDb [txnAAPL buy 10 100 5] = SetMetrics m /\
    forall slice, In slice (PortfolioMetrics.sectorAllocation m) ->
      sectorValue (SectorSlice.sector slice) (PortfolioMetrics.holdings m)
        = Some (SectorSlice.value slice) /\
      SectorSlice.percentage slice =
        (SectorSlice.value slice / PortfolioMetrics.totalValue m * hundred)%num.
Proof.
  apply sector_slice_value. solve_fetched.
Defined.

(** ** The rows of [calculatePortfolioValue] *)

Lemma tally_NoDup m t : NoDup (keys m) -> NoDup (keys (tally m t)).
Proof. intros H. unfold tally. now apply NoDup_keys_set. Qed.

Lemma fold_tally_NoDup txs : forall m,
  NoDup (keys m) -> NoDup (keys (fold_left tally txs m)).
Proof.
  induction txs as [|t txs IH]; simpl; intros m H; auto using tally_NoDup.
Qed.

Lemma get_tally_other m t k :
  Transaction.stock_id t <> k -> JSMap.get k (tally m t) = JSMap.get k m.
Proof. intros H. unfold tally. now apply get_set_other. Qed.

Lemma quantity_fold_tally k txs : forall m,
  match JSMap.get k (fold_left tally txs m) with
  | Some p =>
      Position.quantity p =
      fold_left
        (fun q t =>
           match Transaction.transaction_type t with
           | buy => (q + Transaction.quantity t)%num
           | sell => (q - Transaction.quantity t)%num
           end)
        (filter (fun t => String.eqb (Transaction.stock_id t) k) txs)
        match JSMap.get k m with
        | Some c => Position.quantity c
        | None => zero
        end
  | None =>
      JSMap.get k m = None /\
      filter (fun t => String.eqb (Transaction.stock_id t) k) txs = []
  end.
Proof.
  induction txs as [|t txs IH]; simpl; intros m.
  - destruct (JSMap.get k m); auto.
  - specialize (IH (tally m t)).
    destruct (String.eqb_spec (Transaction.stock_id t) k) as [<-|Hne].
    + assert (exists c,
                JSMap.get (Transaction.stock_id t) (tally m t) = Some c /\
                Position.quantity c =
                match Transaction.transaction_type t with
                | buy =>
                    (match JSMap.get (Transaction.stock_id t) m with
                     | Some c0 => Position.quantity c0
                     | None => zero
                     end + Transaction.quantity t)%num
                | sell =>
                    (match JSMap.get (Transaction.stock_id t) m with
                     | Some c0 => Position.quantity c0
                     | None => zero
                     end - Transaction.quantity t)%num
                end) as [c [Hc Hq]].
      { unfold tally. rewrite get_set_same. eexists. split; [reflexivity|].
        destruct (JSMap.get (Transaction.stock_id t) m);
          destruct (Transaction.transaction_type t); reflexivity. }
      rewrite Hc in IH.
      destruct (JSMap.get (Transaction.stock_id t)
                  (fold_left tally txs (tally m t))) as [p|];
        [|destruct IH; discriminate].
      rewrite IH, Hq. reflexivity.
    + rewrite (get_tally_other m t k Hne) in IH. exact IH.
Qed.

Lemma symbol_fold_tally k txs : forall m c,
  JSMap.get k m = Some c ->
  exists p,
    JSMap.get k (fold_left tally txs m) = Some p /\
    Position.symbol p = Position.symbol c /\
    Position.name p = Position.name c.
Proof.
  induction txs as [|t txs IH]; simpl; intros m c Hget.
  - now exists c.
  - destruct (String.eqb_spec (Transaction.stock_id t) k) as [<-|Hne].
    + destruct (IH (tally m t)
                  (match Transaction.transaction_type t with
                   | buy =>
                       {| Position.quantity :=
                            (Position.quantity c + Transaction.quantity t)%num;
                          Position.symbol := Position.symbol c;
                          Position.name := Position.name c |}
                   | sell =>
                       {| Position.quantity :=
                            (Position.quantity c - Transaction.quantity t)%num;
                          Position.symbol := Position.symbol c;
                          Position.name := Position.name c |}
                   end)) as [p [G [Hs Hn]]].
      { unfold tally. rewrite get_set_same, Hget. reflexivity. }
      exists p. split; [exact G|].
      destruct (Transaction.transaction_type t); simpl in Hs, Hn; auto.
    + apply IH. now rewrite get_tally_other.
Qed.

Lemma first_fold_tally k txs : forall m p,
  JSMap.get k m = None ->
  JSMap.get k (fold_left tally txs m) = Some p ->
  exists pre t post,
    txs = pre ++ t :: post /\
    Transaction.stock_id t = k /\
    (forall u, In u pre -> Transaction.stock_id u <> k) /\
    Position.symbol p = joinedSymbol t /\
    Position.name p = joinedName t.
Proof.
  induction txs as [|t txs IH]; simpl; intros m p Hnone Hget.
  - congruence.
  - destruct (String.eqb_spec (Transaction.stock_id t) k) as [<-|Hne].
    + exists [], t, txs. split; [reflexivity|]. split; [reflexivity|].
      split; [intros u []|].
      destruct (symbol_fold_tally (Transaction.stock_id t) txs (tally m t)
                  (match Transaction.transaction_type t with
                   | buy =>
                       {| Position.quantity := (zero + Transaction.quantity t)%num;
                          Position.symbol := joinedSymbol t;
                          Position.name := joinedName t |}
                   | sell =>
                       {| Position.quantity := (zero - Transaction.quantity t)%num;
                          Position.symbol := joinedSymbol t;
                          Position.name := joinedName t |}
                   end)) as [p' [G [Hs Hn]]].
      { unfold tally. rewrite get_set_same, Hnone. reflexivity. }
      rewrite Hget in G. injection G as <-.
      destruct (Transaction.transaction_type t); simpl in Hs, Hn; auto.
    + destruct (IH (tally m t) p) as (pre & t' & post & -> & Hid & Hpre & Hs & Hn);
        auto.
      { now rewrite get_tally_other. }
      exists (t :: pre), t', post. split; [reflexivity|]. split; [exact Hid|].
      split; auto. intros u [<-|Hu]; auto.
Qed.

Lemma NoDup_keys_filter {V : Type} (f : string * V -> bool) (m : JSMap.t V) :
  NoDup (keys m) -> NoDup (keys (filter f m)).
Proof.
  induction m as [|[k v] m IH]; simpl; auto.
  intros Hnd. inversion Hnd as [|? ? Hout Hnd']; subst.
  destruct (f (k, v)); simpl; auto.
  constructor; auto. intros Hin. apply Hout.
  apply in_map_iff in Hin as [[k' v'] [E Hin]]. simpl in E. subst k'.
  apply filter_In in Hin as [Hin _].
  change k with (fst (k, v')). now apply in_map.
Qed.

Lemma In_rows transactions r :
  In r (calculatePortfolioValue transactions) <->
  exists p,
    JSMap.get (PositionRow.stockId r) (fold_left tally transactions JSMap.empty)
      = Some p /\
    gtb (Position.quantity p) zero = true /\
    r = {| PositionRow.stockId := PositionRow.stockId r;
           PositionRow.quantity := Position.quantity p;
           PositionRow.symbol := Position.symbol p;
           PositionRow.name := Position.name p |}.
Proof.
  pose proof (fold_tally_NoDup transactions JSMap.empty (NoDup_nil _)) as Hnd.
  unfold calculatePortfolioValue, JSMap.entries. split.
  - intros Hin. apply in_map_iff in Hin as [[k p] [<- Hin]].
    apply filter_In in Hin as [Hin Hgt]. simpl.
    exists p. split; [now apply In_get | auto].
  - intros [p [Hget [Hgt ->]]]. simpl.
    apply in_map_iff. exists (PositionRow.stockId r, p). split; [reflexivity|].
    apply filter_In. split; [now apply get_In | exact Hgt].
Qed.

Lemma rows_stockIds transactions :
  map PositionRow.stockId (calculatePortfolioValue transactions) =
  keys (filter (fun '(_, holding) => gtb (Position.quantity holding) zero)
          (fold_left tally transactions JSMap.empty)).
Proof.
  unfold calculatePortfolioValue, JSMap.entries, keys. rewrite map_map.
  apply map_ext. now intros [k p].
Qed.

Lemma quantity_fold_tally_empty k transactions p :
  JSMap.get k (fold_left tally transactions JSMap.empty) = Some p ->
  Position.quantity p = netQuantity k transactions.
Proof.
  intros Hget. pose proof (quantity_fold_tally k transactions JSMap.empty) as H.
  rewrite Hget in H. exact H.
Qed.

(** X10.  The rows of [calculatePortfolioValue] have pairwise distinct
    stock ids; the quantity of a row is the net of its stock's transactions
    (buys added, sells subtracted, from 0, in list order); and a stock has
    a row exactly when it has a transaction and that net is > 0. *)
Theorem rows_are_net_positive_positions (transactions : list Transaction.t) :
  NoDup (map PositionRow.stockId (calculatePortfolioValue transactions)) /\
  (forall r, In r (calculatePortfolioValue transactions) ->
     PositionRow.quantity r = netQuantity (PositionRow.stockId r) transactions) /\
  (forall k,
     (exists r, In r (calculatePortfolioValue transactions) /\
                PositionRow.stockId r = k) <->
     (exists t, In t transactions /\ Transaction.stock_id t = k) /\
     gtb (netQuantity k transactions) zero = true).
Proof.
  split; [|split].
  - rewrite rows_stockIds. apply NoDup_keys_filter.
    apply fold_tally_NoDup. constructor.
  - intros r Hin. apply In_rows in Hin as [p [Hget [_ ->]]]. simpl.
    now apply quantity_fold_tally_empty.
  - intros k. split.
    + intros [r [Hin <-]]. apply In_rows in Hin as [p [Hget [Hgt _]]].
      rewrite <- (quantity_fold_tally_empty _ _ _ Hget). split; [|exact Hgt].
      destruct (first_fold_tally _ _ JSMap.empty p eq_refl Hget)
        as (pre & t & post & -> & Hid & _).
      exists t. split; [|exact Hid]. apply in_or_app. right. now left.
    + intros [[t [Hin Hid]] Hgt].
      pose proof (quantity_fold_tally k transactions JSMap.empty) as H.
      destruct (JSMap.get k (fold_left tally transactions JSMap.empty))
        as [p|] eqn:Hget.
      * exists {| PositionRow.stockId := k;
                  PositionRow.quantity := Position.quantity p;
                  PositionRow.symbol := Position.symbol p;
                  PositionRow.name := Position.name p |}.
        split; [|reflexivity]. apply In_rows. exists p. simpl.
        split; [exact Hget|]. split; [|reflexivity].
        change (Position.quantity p = netQuantity k transactions) in H.
        now rewrite H.
      * destruct H as [_ H]. exfalso.
        assert (In t (filter (fun t => String.eqb (Transaction.stock_id t) k)
                        transactions)) as Hf.
        { apply filter_In. split; [exact Hin|]. now apply String.eqb_eq. }
        rewrite H in Hf. exact Hf.
Qed.

(** X11.  The symbol and name shown in a row are those joined to the first
    transaction of the list on that stock (empty when that transaction has
    no joined stock), whatever the later transactions carry. *)
Theorem row_labels_from_first_transaction
    (transactions : list Transaction.t) (r : PositionRow.t) :
  In r (calculatePortfolioValue transactions) ->
  exists pre t post,
    transactions = pre ++ t :: post /\
    Transaction.stock_id t = PositionRow.stockId r /\
    (forall u, In u pre -> Transaction.stock_id u <> PositionRow.stockId r) /\
    PositionRow.symbol r = joinedSymbol t /\
    PositionRow.name r = joinedName t.
Proof.
  intros Hin. apply In_rows in Hin as [p [Hget [_ ->]]]. simpl.
  exact (first_fold_tally _ _ JSMap.empty p eq_refl Hget).
Qed.

Lemma row_labels_from_first_transaction_witness :
  exists pre t post,
    [ {| Transaction.stock_id := "stock-aapl";
         Transaction.transaction_type := buy;
         Transaction.quantity := of_Z 10;
         Transaction.price := of_Z 100;
         Transaction.fees := of_Z 5;
         Transaction.stock := Some AAPL |};
      txnAAPL sell 4 110 0 ] = pre ++ t :: post /\
    Transaction.stock_id t = "stock-aapl" /\
    (forall u, In u pre -> Transaction.stock_id u <> "stock-aapl") /\
    "AAPL" = joinedSymbol t /\
    "Apple Inc." = joinedName t.
Proof.
  apply (row_labels_from_first_transaction
           [ {| Transaction.stock_id := "stock-aapl";
                Transaction.transaction_type := buy;
                Transaction.quantity := of_Z 10;
                Transaction.price := of_Z 100;
                Transaction.fees := of_Z 5;
                Transaction.stock := Some AAPL |};
             txnAAPL sell 4 110 0 ]
           {| PositionRow.stockId := "stock-aapl";
              PositionRow.quantity := (zero + of_Z 10 - of_Z 4)%num;
              PositionRow.symbol := "AAPL";
              PositionRow.name := "Apple Inc." |}).
  left. reflexivity.
Defined.

Lemma add_NaN_l (y : number) : (NaN + y)%num = NaN.
Proof. destruct y; reflexivity. Qed.

Lemma sub_NaN_l (y : number) : (NaN - y)%num = NaN.
Proof. destruct y; reflexivity. Qed.

Lemma sub_NaN_r (x : number) : (x - NaN)%num = NaN.
Proof. destruct x as [[]|[]| |[] m e]; reflexivity. Qed.

Lemma net_from_NaN (l : list Transaction.t) :
  fold_left
    (fun q t =>
       match Transaction.transaction_type t with
       | buy => (q + Transaction.quantity t)%num
       | sell => (q - Transaction.quantity t)%num
       end) l NaN = NaN.
Proof.
  induction l as [|t l IH]; simpl; auto.
  destruct (Transaction.transaction_type t);
    rewrite ?add_NaN_l, ?sub_NaN_l; exact IH.
Qed.

Lemma net_with_NaN (l : list Transaction.t) (t : Transaction.t) :
  In t l -> Transaction.quantity t = NaN ->
  forall q0,
    fold_left
      (fun q t =>
         match Transaction.transaction_type t with
         | buy => (q + Transaction.quantity t)%num
         | sell => (q - Transaction.quantity t)%num
         end) l q0 = NaN.
Proof.
  induction l as [|u l IH]; simpl; [tauto|].
  intros [->|Hin] Hq q0.
  - rewrite Hq.
    destruct (Transaction.transaction_type t);
      rewrite ?add_NaN_r, ?sub_NaN_r; apply net_from_NaN.
  - now apply IH.
Qed.

(** X12.  A stock one of whose transactions has a NaN quantity never gets
    a row in [calculatePortfolioValue], whatever its other transactions
    are. *)
Theorem nan_quantity_hides_row
    (transactions : list Transaction.t) (t : Transaction.t) :
  In t transactions ->
  Transaction.quantity t = NaN ->
  forall r, In r (calculatePortfolioValue transactions) ->
    PositionRow.stockId r <> Transaction.stock_id t.
Proof.
  intros Hin Hq r Hr E.
  apply In_rows in Hr as [p [Hget [Hgt _]]].
  rewrite (quantity_fold_tally_empty _ _ _ Hget) in Hgt.
  unfold netQuantity in Hgt. rewrite (net_with_NaN _ t) in Hgt; auto.
  - discriminate Hgt.
  - apply filter_In. split; [exact Hin|]. rewrite E. apply String.eqb_refl.
Qed.

Lemma nan_quantity_hides_row_witness :
  Transaction.quantity
    {| Transaction.stock_id := "stock-aapl";
       Transaction.transaction_type := buy;
       Transaction.quantity := NaN;
       Transaction.price := of_Z 100;
       Transaction.fees := zero;
       Transaction.stock := None |} = NaN /\
  forall r,
    In r (calculatePortfolioValue
            [ txnAAPL buy 10 100 5;
              {| Transaction.stock_id := "stock-aapl";
                 Transaction.transaction_type := buy;
                 Transaction.quantity := NaN;
                 Transaction.price := of_Z 100;
                 Transaction.fees := zero;
                 Transaction.stock := None |} ]) ->
    PositionRow.stockId r <> "stock-aapl".
Proof.
  split; [reflexivity|].
  apply (nan_quantity_hides_row
           [ txnAAPL buy 10 100 5;
             {| Transaction.stock_id := "stock-aapl";
                Transaction.transaction_type := buy;
                Transaction.quantity := NaN;
                Transaction.price := of_Z 100;
                Transaction.fees := zero;
                Transaction.stock := None |} ]
           {| Transaction.stock_id := "stock-aapl";
              Transaction.transaction_type := buy;
              Transaction.quantity := NaN;
              Transaction.price := of_Z 100;
              Transaction.fees := zero;
              Transaction.stock := None |}).
  - right. left. reflexivity.
  - reflexivity.
Defined.

(** ** The preferred sectors of the Settings form *)

Lemma includes_In (x : string) (l : list string) :
  existsb (String.eqb x) l = true <-> In x l.
Proof.
  rewrite existsb_exists. split.
  - intros [y [Hin E]]. apply String.eqb_eq in E. now subst.
  - intros Hin. exists x. split; [exact Hin | apply String.eqb_refl].
Qed.

Lemma In_without (s x : string) (l : list string) :
  In s (filter (fun y => negb (String.eqb y x)) l) <-> In s l /\ s <> x.
Proof.
  rewrite filter_In. split; intros [H1 H2]; split; auto.
  - intros ->. now rewrite String.eqb_refl in H2.
  - now destruct (String.eqb_spec s x).
Qed.

Lemma without_absent (x : string) (l : list string) :
  ~ In x l -> filter (fun y => negb (String.eqb y x)) l = l.
Proof.
  induction l as [|y l IH]; simpl; auto.
  intros H. destruct (String.eqb_spec y x) as [->|_]; simpl.
  - exfalso. apply H. now left.
  - rewrite IH; auto.
Qed.

(** X13.  Toggling a sector flips its membership in the preferred
    sectors and nothing else: every other sector is selected after the
    toggle exactly when it was before, and the risk profile and the
    investment horizon of the form are kept. *)
Theorem toggleSector_flips_membership
    (sector : string) (form : SettingsForm.t) :
  (In sector (SettingsForm.preferred_sectors (toggleSector sector form)) <->
   ~ In sector (SettingsForm.preferred_sectors form)) /\
  (forall s, s <> sector ->
     (In s (SettingsForm.preferred_sectors (toggleSector sector form)) <->
      In s (SettingsForm.preferred_sectors form))) /\
  SettingsForm.risk_profile (toggleSector sector form)
    = SettingsForm.risk_profile form /\
  SettingsForm.investment_horizon (toggleSector sector form)
    = SettingsForm.investment_horizon form.
Proof.
  unfold toggleSector.
  destruct (existsb (String.eqb sector) (SettingsForm.preferred_sectors form))
    eqn:E; simpl.
  - apply includes_In in E. split; [|split; [|split; reflexivity]].
    + rewrite In_without. tauto.
    + intros s Hs. rewrite In_without. tauto.
  - assert (~ In sector (SettingsForm.preferred_sectors form)) as Hout.
    { intros H. apply includes_In in H. congruence. }
    split; [|split; [|split; reflexivity]].
    + rewrite in_app_iff. simpl. tauto.
    + intros s Hs. rewrite in_app_iff. simpl.
      split; [intros [H|[H|[]]]; congruence | tauto].
Qed.

(** X14.  Toggling keeps a selection free of duplicates, and toggling the
    same sector twice gives back the selection: the very same form when the
    sector was not selected, and otherwise the same sectors with the
    toggled one moved to the end (all its occurrences merged into one). *)
Theorem toggleSector_twice (sector : string) (form : SettingsForm.t) :
  (NoDup (SettingsForm.preferred_sectors form) ->
   NoDup (SettingsForm.preferred_sectors (toggleSector sector form))) /\
  (~ In sector (SettingsForm.preferred_sectors form) ->
   toggleSector sector (toggleSector sector form) = form) /\
  (In sector (SettingsForm.preferred_sectors form) ->
   SettingsForm.preferred_sectors (toggleSector sector (toggleSector sector form))
   = filter (fun s => negb (String.eqb s sector))
       (SettingsForm.preferred_sectors form) ++ [sector]).
Proof.
  destruct form as [rp ih l]. unfold toggleSector. simpl.
  split; [|split].
  - intros Hnd. destruct (existsb (String.eqb sector) l) eqn:E; simpl.
    + now apply NoDup_filter.
    + apply NoDup_app; auto.
      * repeat constructor. simpl. tauto.
      * intros x Hx [<-|[]]. apply includes_In in Hx. congruence.
  - intros Hout.
    destruct (existsb (String.eqb sector) l) eqn:E.
    { apply includes_In in E. contradiction. }
    simpl. rewrite existsb_app. simpl. rewrite String.eqb_refl, orb_true_r.
    simpl. rewrite filter_app. simpl. rewrite String.eqb_refl. simpl.
    now rewrite app_nil_r, without_absent.
  - intros Hin. apply includes_In in Hin. rewrite Hin. simpl.
    destruct (existsb (String.eqb sector)
                (filter (fun s => negb (String.eqb s sector)) l)) eqn:E.
    + apply includes_In in E. apply In_without in E. tauto.
    + reflexivity.
Qed.

(** ** The order of the holdings *)

Lemma increasing_snoc idx b :
  increasing idx -> Forall (fun n => n < b) idx -> increasing (idx ++ [b]).
Proof.
  induction idx as [|n idx IH]; simpl.
  - intros _ _. split; [constructor | exact I].
  - intros [Hn Hinc] Hb. inversion Hb; subst. split; [|now apply IH].
    apply Forall_app. split; [exact Hn | now repeat constructor].
Qed.

Lemma Forall2_keys_delete {V : Type} (R : string -> nat -> Prop)
    (Q : nat -> Prop) k (m : JSMap.t V) : forall idx,
  Forall2 R (keys m) idx -> increasing idx -> Forall Q idx ->
  exists idx',
    Forall2 R (keys (JSMap.delete k m)) idx' /\ increasing idx' /\
    Forall Q idx' /\ incl idx' idx.
Proof.
  induction m as [|[k0 v0] m IH]; simpl; intros idx HR Hinc HQ.
  - inversion HR; subst. exists []. repeat split; auto. apply incl_refl.
  - inversion HR as [|? n ? idx0 Hk Hrest]; subst.
    destruct Hinc as [Hn Hinc]. inversion HQ as [|? ? Hq HQ0]; subst.
    destruct (String.eqb k k0).
    + exists idx0. repeat split; auto. apply incl_tl, incl_refl.
    + destruct (IH idx0 Hrest Hinc HQ0) as (idx' & HR' & Hinc' & HQ' & Hsub).
      exists (n :: idx'). simpl. repeat split; auto.
      * rewrite Forall_forall in Hn |- *. intros x Hx. apply Hn. now apply Hsub.
      * apply incl_cons; [now left | now apply incl_tl].
Qed.

Lemma Forall2_impl_In {A B : Type} (R R' : A -> B -> Prop) (l : list A) :
  forall idx,
  Forall2 R l idx ->
  (forall a b, In a l -> R a b -> R' a b) ->
  Forall2 R' l idx.
Proof.
  induction l as [|a l IH]; intros idx HR Himp; inversion HR; subst;
    constructor.
  - apply Himp; [now left | assumption].
  - apply IH; auto. intros a' b' Hin. apply Himp. now right.
Qed.

Lemma Forall2_map_left {A B C : Type} (f : A -> B) (R : B -> C -> Prop)
    (l : list A) : forall idx,
  Forall2 (fun a c => R (f a) c) l idx -> Forall2 R (map f l) idx.
Proof.
  induction l as [|a l IH]; intros idx H; inversion H; subst; simpl;
    constructor; auto.
Qed.

Lemma openedAt_snoc db docs u k n st' :
  openedAt db docs k n ->
  loop db (docs ++ [u]) initialState = Some st' ->
  JSMap.get k (loop_holdings st') <> None ->
  openedAt db (docs ++ [u]) k n.
Proof.
  intros (t & post & Hopen & Hlen) Hrun Hget.
  exists t, (post ++ [u]). split; [eapply openingBuy_snoc; eauto|].
  rewrite !length_app. simpl. lia.
Qed.

Lemma processTxn_keys stock txn st :
  keys (loop_holdings (processTxn stock txn st)) = keys (loop_holdings st) \/
  (Transaction.transaction_type txn = buy /\
   JSMap.get (Stock.symbol stock) (loop_holdings st) = None /\
   keys (loop_holdings (processTxn stock txn st)) =
     keys (loop_holdings st) ++ [Stock.symbol stock]) \/
  loop_holdings (processTxn stock txn st) =
    JSMap.delete (Stock.symbol stock) (loop_holdings st).
Proof.
  unfold processTxn.
  destruct (Transaction.transaction_type txn) eqn:Ety;
    destruct (JSMap.get (Stock.symbol stock) (loop_holdings st)) as [h|] eqn:G;
    simpl.
  - left. eapply keys_set_present; eauto.
  - right. left. repeat split; auto. now apply keys_set_absent.
  - destruct (leb _ _); simpl.
    + right. right. reflexivity.
    + left. eapply keys_set_present; eauto.
  - left. reflexivity.
Qed.

Lemma opening_order db docs : forall st,
  loop db docs initialState = Some st ->
  exists idx,
    Forall2 (openedAt db docs) (keys (loop_holdings st)) idx /\
    increasing idx /\
    Forall (fun n => n < List.length docs) idx.
Proof.
  induction docs as [|u docs IH] using rev_ind; intros st Hrun.
  - injection Hrun as <-. exists []. simpl. repeat split; constructor.
  - pose proof Hrun as Hl. rewrite loop_snoc in Hl.
    destruct (loop db docs initialState) as [st0|] eqn:E0; [|discriminate].
    destruct (IH st0 eq_refl) as (idx & HR & Hinc & Hlt).
    assert (forall k n, In k (keys (loop_holdings st)) ->
              openedAt db docs k n -> openedAt db (docs ++ [u]) k n) as Hkeep.
    { intros k n Hin Ho. eapply openedAt_snoc; eauto.
      intros Hnone. now apply get_None_keys in Hnone. }
    assert (Forall (fun n => n < List.length (docs ++ [u])) idx) as Hlt'.
    { rewrite length_app. simpl. eapply Forall_impl; [|exact Hlt].
      simpl. intros n Hn. lia. }
    assert (keys (loop_holdings st) = keys (loop_holdings st0) ->
            exists idx',
              Forall2 (openedAt db (docs ++ [u])) (keys (loop_holdings st)) idx' /\
              increasing idx' /\
              Forall (fun n => n < List.length (docs ++ [u])) idx') as Hsame.
    { intros Ek. exists idx. repeat split; auto.
      apply (Forall2_impl_In (openedAt db docs)); auto. now rewrite Ek. }
    unfold iteration in Hl.
    destruct (db (Transaction.stock_id u)) as [|[stock|]] eqn:Edb;
      try discriminate; injection Hl as Hst.
    + destruct (processTxn_keys stock u st0) as [Ek|[(Hty & Hnone & Ek)|Ed]].
      * apply Hsame. now rewrite <- Hst.
      * exists (idx ++ [List.length docs]). split; [|split].
        -- rewrite <- Hst, Ek. apply Forall2_app.
           ++ apply (Forall2_impl_In (openedAt db docs)); auto.
              intros k n Hin. apply Hkeep. rewrite <- Hst, Ek.
              apply in_or_app. now left.
           ++ repeat constructor. exists u, [].
              split; [|rewrite length_app; simpl; lia].
              exists docs. repeat split; auto.
              ** exists stock. auto.
              ** exists st0. auto.
              ** intros post1 post2 E. symmetry in E.
                 apply app_eq_nil in E as [-> _].
                 exists st. split; [exact Hrun|].
                 intros Hn. apply get_None_keys in Hn. apply Hn.
                 rewrite <- Hst, Ek. apply in_or_app. right. now left.
        -- now apply increasing_snoc.
        -- apply Forall_app. split; [exact Hlt'|].
           repeat constructor. rewrite length_app. simpl. lia.
      * destruct (Forall2_keys_delete (openedAt db docs)
                    (fun n => n < List.length (docs ++ [u]))
                    (Stock.symbol stock) (loop_holdings st0) idx HR Hinc Hlt')
          as (idx' & HR' & Hinc' & HQ' & _).
        exists idx'. repeat split; auto.
        rewrite <- Hst, Ed.
        apply (Forall2_impl_In (openedAt db docs)); auto.
        intros k n Hin. apply Hkeep. now rewrite <- Hst, Ed.
    + apply Hsame. now rewrite <- Hst.
Qed.

(** X15.  When every fetch resolves, the holdings handed to [setMetrics]
    stand in the order in which their positions were opened: the indices
    in the transaction list of their opening buys are strictly increasing
    along the list of holdings (so the first five, shown as Top Holdings,
    are the five positions opened first). *)
Theorem holdings_in_opening_order
    (db : StocksCollection) (docs : list Transaction.t) :
  fetched db docs ->
  exists m idx,
    loadPortfolioMetrics db docs = SetMetrics m /\
    Forall2 (fun h n => openedAt db docs (Stock.symbol (Holding.stock h)) n)
      (PortfolioMetrics.holdings m) idx /\
    increasing idx.
Proof.
  intros Hf. unfold loadPortfolioMetrics.
  destruct (loop_fetched _ _ Hf initialState) as [st Hst]. rewrite Hst.
  destruct (opening_order _ _ _ Hst) as (idx & HR & Hinc & _).
  pose proof (loop_NoDup _ _ _ _ Hst initial_NoDup) as Hnd.
  eexists. exists idx. split; [reflexivity|]. split; [|exact Hinc].
  unfold summarize. simpl. unfold JSMap.values.
  apply Forall2_map_left, Forall2_map_left. simpl.
  apply (Forall2_impl_In (fun e n => openedAt db docs (fst e) n)).
  - clear - HR. unfold keys in HR. remember (loop_holdings st) as l. clear Heql.
    revert idx HR. induction l as [|e l IH]; intros idx HR; inversion HR; subst;
      constructor; auto.
  - intros [k h] n Hin Ho. simpl in *.
    apply In_get in Hin; [|assumption].
    now destruct (ledger_invariant _ _ _ Hst _ _ Hin) as (_ & _ & _ & -> & _).
Qed.

Lemma holdings_in_opening_order_witness :
  exists m idx,
    loadPortfolioMetrics stocksDb
      [txnAAPL buy 10 100 5; txnAAPL sell 10 110 0; txnAAPL buy 3 90 1]
      = SetMetrics m /\
    Forall2
      (fun h n =>
         openedAt stocksDb
           [txnAAPL buy 10 100 5; txnAAPL sell 10 110 0; txnAAPL buy 3 90 1]
           (Stock.symbol (Holding.stock h)) n)
      (PortfolioMetrics.holdings m) idx /\
    increasing idx.
Proof.
  apply holdings_in_opening_order. solve_fetched.
Defined.
